(** * Array validators of [pyvista.core.validate.array_validators]

    A shallow embedding of the validation layer
    ([validate_array], its specialised wrappers, [validate_axes] and
    [validate_transform4x4]) together with the properties stated about it.

    Numeric idealisation.  The numeric array library works on machine
    numbers; here an element is an exact rational or one of the three
    IEEE specials (+inf, -inf, nan), integers are unbounded, and the
    square root used by the norm is the rational root rounded down on
    a fixed grid (exact on squares of rationals).  Complex arrays are
    outside the model. *)

From Stdlib Require Import ZArith QArith Qround Qabs Lia Lqa String Ascii List Bool.
From stdpp Require Import base option list gmap strings pretty.

#[local] Set Warnings "-register-all".

Local Open Scope string_scope.
Local Open Scope Z_scope.

(** ** Exceptions and results *)

Inductive exn :=
  | TypeError (msg : string)
  | ValueError (msg : string).

Inductive result (A : Type) :=
  | Ok (a : A)
  | Raise (e : exn).
Arguments Ok {A} a.
Arguments Raise {A} e.

Definition rbind {A B} (r : result A) (k : A -> result B) : result B :=
  match r with
  | Ok a => k a
  | Raise e => Raise e
  end.

Notation "'do' x <- r ; k" := (rbind r (fun x => k))
  (at level 10, x name, r at level 100, k at level 200, only parsing).
Notation "'run' r ; k" := (rbind r (fun _ : unit => k))
  (at level 10, r at level 100, k at level 200, only parsing).

(** [when_ b r] runs the check [r] only when the flag [b] is set. *)
Definition when_ (b : bool) (r : result unit) : result unit :=
  if b then r else Ok tt.

Definition is_value_error {A} (r : result A) : bool :=
  match r with Raise (ValueError _) => true | _ => false end.

Definition is_type_error {A} (r : result A) : bool :=
  match r with Raise (TypeError _) => true | _ => false end.

(** [try: r except ValueError: raise e] *)
Definition except_ValueError {A} (r : result A) (e : exn) : result A :=
  match r with
  | Raise (ValueError _) => Raise e
  | _ => r
  end.

(** ** Numbers

    An array element: a finite value or an IEEE special.  Arithmetic
    keeps finite values in lowest terms. *)

Inductive xq :=
  | Fin (q : Q)
  | PInf
  | NInf
  | NaN.

Definition is_finite (x : xq) : bool :=
  match x with Fin _ => true | _ => false end.

Definition Qltb (a b : Q) : bool := negb (Qle_bool b a).

Definition xle (x y : xq) : bool :=
  match x, y with
  | NaN, _ | _, NaN => false
  | NInf, _ => true
  | _, PInf => true
  | Fin a, Fin b => Qle_bool a b
  | _, _ => false
  end.

Definition xlt (x y : xq) : bool :=
  match x, y with
  | NaN, _ | _, NaN => false
  | PInf, _ => false
  | _, NInf => false
  | Fin a, Fin b => Qltb a b
  | _, _ => true
  end.

Definition xeqb (x y : xq) : bool :=
  match x, y with
  | Fin a, Fin b => Qeq_bool a b
  | PInf, PInf | NInf, NInf => true
  | _, _ => false
  end.

Definition xopp (x : xq) : xq :=
  match x with
  | Fin a => Fin (Qred (- a))
  | PInf => NInf
  | NInf => PInf
  | NaN => NaN
  end.

Definition xadd (x y : xq) : xq :=
  match x, y with
  | NaN, _ | _, NaN => NaN
  | Fin a, Fin b => Fin (Qred (a + b))
  | PInf, NInf | NInf, PInf => NaN
  | PInf, _ | _, PInf => PInf
  | NInf, _ | _, NInf => NInf
  end.

Definition xsub (x y : xq) : xq := xadd x (xopp y).

(** The sign of a finite value: [-1], [0] or [1]. *)
Definition Qsign (a : Q) : Z := Z.sgn (Qnum a).

Definition inf_of_sign (s : Z) : xq :=
  if s =? 0 then NaN else if 0 <? s then PInf else NInf.

Definition xsign (x : xq) : Z :=
  match x with
  | Fin a => Qsign a
  | PInf => 1
  | NInf => -1
  | NaN => 0
  end.

Definition xmul (x y : xq) : xq :=
  match x, y with
  | NaN, _ | _, NaN => NaN
  | Fin a, Fin b => Fin (Qred (a * b))
  | _, _ => inf_of_sign (xsign x * xsign y)
  end.

Definition xdiv (x y : xq) : xq :=
  match x, y with
  | NaN, _ | _, NaN => NaN
  | Fin a, Fin b =>
      if Qeq_bool b 0 then inf_of_sign (Qsign a) else Fin (Qred (a / b))
  | Fin a, _ => Fin 0
  | _, Fin b => inf_of_sign (xsign x * (if Qeq_bool b 0 then 1 else Qsign b))
  | _, _ => NaN
  end.

Definition xabs (x : xq) : xq :=
  match x with
  | Fin a => Fin (Qred (Qabs a))
  | PInf | NInf => PInf
  | NaN => NaN
  end.

(** [np.floor] *)
Definition xfloor (x : xq) : xq :=
  match x with
  | Fin a => Fin (inject_Z (Qfloor a))
  | _ => x
  end.

(** Square root of a non-negative rational [n/d], computed as
    [sqrt (n*d) / d] with the integer root taken after scaling by
    [4^53]: the result is exact when [n/d] is the square of a rational
    and lies below the real root, within [2^-53 / d] of it, otherwise. *)
Definition sqrt_scale : Z := 2 ^ 53.

Definition Qsqrt (q : Q) : Q :=
  Qred (Qmake (Z.sqrt (Qnum q * Zpos (Qden q) * (sqrt_scale * sqrt_scale)))
              (Qden q * Z.to_pos sqrt_scale)).

(** [np.sqrt]: nan below zero. *)
Definition xsqrt (x : xq) : xq :=
  match x with
  | Fin a => if Qltb a 0 then NaN else Fin (Qsqrt a)
  | PInf => PInf
  | _ => NaN
  end.

(** [np.isclose(a, b)] with the library's default tolerances:
    [|a - b| <= atol + rtol * |b|], equal infinities are close. *)
Definition rtol : Q := 1 # 100000.
Definition atol : Q := 1 # 100000000.

Definition isclose (a b : xq) : bool :=
  match a, b with
  | Fin _, Fin _ =>
      xle (xabs (xsub a b)) (xadd (Fin atol) (xmul (Fin rtol) (xabs b)))
  | _, _ => xeqb a b
  end.

(** ** Arrays *)

Inductive dtype := DBool | DInt | DFloat | DStr.

Definition dtype_eqb (a b : dtype) : bool :=
  match a, b with
  | DBool, DBool | DInt, DInt | DFloat, DFloat | DStr, DStr => true
  | _, _ => false
  end.

Definition dtype_rank (d : dtype) : nat :=
  match d with DBool => 0 | DInt => 1 | DFloat => 2 | DStr => 3 end%nat.

(** Type promotion when values of two kinds meet in one array. *)
Definition promote (a b : dtype) : dtype :=
  if (dtype_rank a <=? dtype_rank b)%nat then b else a.

(** A Python scalar. *)
Inductive pyscalar :=
  | PyBool (b : bool)
  | PyInt (z : Z)
  | PyFloat (x : xq)
  | PyStr (s : string).

Definition scalar_dtype (s : pyscalar) : dtype :=
  match s with
  | PyBool _ => DBool
  | PyInt _ => DInt
  | PyFloat _ => DFloat
  | PyStr _ => DStr
  end.

(** The numeric value of a scalar.  A string has none: string arrays
    are rejected by the type check of every validator, before any
    element is looked at. *)
Definition scalar_value (s : pyscalar) : xq :=
  match s with
  | PyBool b => Fin (if b then 1 else 0)
  | PyInt z => Fin (inject_Z z)
  | PyFloat x => x
  | PyStr _ => NaN
  end.

(** An n-dimensional array: element kind, shape, and the elements in
    row-major order. *)
Record ndarray := mk_ndarray {
  arr_dtype : dtype;
  arr_shape : list nat;
  arr_data : list xq
}.

Definition nprod (l : list nat) : nat := fold_right Nat.mul 1%nat l.

Definition arr_size (a : ndarray) : nat := nprod (arr_shape a).
Definition arr_ndim (a : ndarray) : nat := length (arr_shape a).

(** What the validators accept: a scalar, a (nested) sequence, or an
    array. *)
Inductive array_like :=
  | AScalar (s : pyscalar)
  | ASeq (items : list array_like)
  | AArr (a : ndarray).

Definition shape_eqb (s t : list nat) : bool :=
  bool_decide (s = t).

(** Stack equally shaped arrays along a new leading axis. *)
Definition stack (parts : list ndarray) : result ndarray :=
  match parts with
  | [] => Ok (mk_ndarray DFloat [0%nat] [])
  | p :: rest =>
      if forallb (fun r => shape_eqb (arr_shape r) (arr_shape p)) rest then
        Ok (mk_ndarray
              (fold_right (fun r d => promote (arr_dtype r) d) (arr_dtype p) rest)
              (length parts :: arr_shape p)
              (concat (map arr_data parts)))
      else
        Raise (ValueError "setting an array element with a sequence. The requested array has an inhomogeneous shape.")
  end.

(** Modelled from the spec: [cast_to_ndarray] of
    [pyvista.core.utilities.arrays] converts array-like input (scalar,
    nested sequence, or native array) to a rectangular numeric array.
    Copying and subclass stripping ([as_any], [copy]) do not change
    the value and leave no trace here. *)
Fixpoint cast_to_ndarray (arr : array_like) (as_any copy : bool) : result ndarray :=
  match arr with
  | AScalar s => Ok (mk_ndarray (scalar_dtype s) [] [scalar_value s])
  | AArr a => Ok a
  | ASeq items =>
      let fix cast_all (l : list array_like) : result (list ndarray) :=
        match l with
        | [] => Ok []
        | x :: r =>
            do a <- cast_to_ndarray x as_any copy;
            do rs <- cast_all r;
            Ok (a :: rs)
        end in
      do parts <- cast_all items;
      stack parts
  end.

(** A shape as the caller writes it: an integer or a tuple. *)
Inductive shape_like :=
  | SInt (n : Z)
  | STuple (t : list Z).

Definition shape_tuple (s : shape_like) : list Z :=
  match s with
  | SInt n => [n]
  | STuple t => t
  end.

Definition shape_Z (s : list nat) : list Z := map Z.of_nat s.

(** [arr.shape != s]: a shape tuple never equals an integer. *)
Definition shape_differs (a : ndarray) (s : shape_like) : bool :=
  match s with
  | SInt _ => true
  | STuple t => negb (bool_decide (shape_Z (arr_shape a) = t))
  end.

(** The concrete shape [arr.reshape(t)] gives an array of [size]
    elements: at most one [-1], filled in from the size. *)
Definition resolve_shape (size : nat) (t : list Z) : result (list nat) :=
  let unknown := length (filter (fun d => d = -1) t) in
  let known := fold_right Z.mul 1 (filter (fun d => d ≠ -1) t) in
  if negb (forallb (fun d => -1 <=? d) t) then
    Raise (ValueError "negative dimensions not allowed")
  else if (1 <? unknown)%nat then
    Raise (ValueError "can only specify one unknown dimension")
  else if (unknown =? 1)%nat then
    if (known =? 0) || negb (Z.of_nat size mod known =? 0) then
      Raise (ValueError "cannot reshape array into shape")
    else
      Ok (map (fun d => Z.to_nat (if d =? -1 then Z.of_nat size / known else d)) t)
  else if known =? Z.of_nat size then
    Ok (map Z.to_nat t)
  else
    Raise (ValueError "cannot reshape array into shape").

(** [arr.reshape(s)] *)
Definition reshape (a : ndarray) (s : shape_like) : result ndarray :=
  do shp <- resolve_shape (arr_size a) (shape_tuple s);
  Ok (mk_ndarray (arr_dtype a) shp (arr_data a)).

(** [n] consecutive chunks of [k] elements. *)
Fixpoint chunks {A} (n k : nat) (l : list A) : list (list A) :=
  match n with
  | O => []
  | S n' => take k l :: chunks n' k (drop k l)
  end.

(** Broadcasting rule on right-aligned shapes of equal rank. *)
Definition broadcastable (src tgt : list nat) : bool :=
  (length src =? length tgt)%nat &&
  forallb (fun p => (fst p =? snd p)%nat || (fst p =? 1)%nat) (zip src tgt).

Fixpoint broadcast_data (src tgt : list nat) (l : list xq) : list xq :=
  match src, tgt with
  | s :: ss, t :: ts =>
      let parts := map (broadcast_data ss ts) (chunks s (nprod ss) l) in
      if (s =? t)%nat then concat parts
      else concat (repeat (hd [] parts) t)
  | _, _ => l
  end.

(** [np.broadcast_to(arr, s)] *)
Definition broadcast_to_ (a : ndarray) (s : shape_like) : result ndarray :=
  let t := shape_tuple s in
  if negb (forallb (fun d => 0 <=? d) t) then
    Raise (ValueError "all elements of broadcast shape must be non-negative")
  else
    let tgt := map Z.to_nat t in
    let src := (repeat 1 (length tgt - arr_ndim a) ++ arr_shape a)%nat%list in
    if broadcastable src tgt then
      Ok (mk_ndarray (arr_dtype a) tgt (broadcast_data src tgt (arr_data a)))
    else
      Raise (ValueError "operands could not be broadcast together").

(** ** Element kinds as the caller names them *)

(** A dtype-like object: a Python type, an abstract class of the
    numeric library, or one of its concrete element types (whose bit
    width is not modelled). *)
Inductive dtype_like :=
  | py_bool
  | py_int
  | py_float
  | py_str
  | np_integer
  | np_floating
  | np_number
  | np_type (d : dtype).

(** [np.dtype(t)] *)
Definition np_dtype (t : dtype_like) : dtype :=
  match t with
  | py_bool => DBool
  | py_int | np_integer => DInt
  | py_float | np_floating | np_number => DFloat
  | py_str => DStr
  | np_type d => d
  end.

(** [np.issubdtype(d, t)] *)
Definition issubdtype (d : dtype) (t : dtype_like) : bool :=
  match t with
  | np_integer => dtype_eqb d DInt
  | np_floating => dtype_eqb d DFloat
  | np_number => dtype_eqb d DInt || dtype_eqb d DFloat
  | _ => dtype_eqb d (np_dtype t)
  end.

(** [t is not int] *)
Definition is_py_int (t : dtype_like) : bool :=
  match t with py_int => true | _ => false end.

(** ** Conversion of the output *)

(** Truncation toward zero. *)
Definition Qtrunc (q : Q) : Z :=
  if Qltb q 0 then Qceiling q else Qfloor q.

(** Conversion of one element to another kind.  A non-finite value has
    no integer counterpart; the library then yields its smallest
    integer. *)
Definition convert (d : dtype) (x : xq) : xq :=
  match d with
  | DBool => Fin (if xeqb x (Fin 0) then 0 else 1)
  | DInt =>
      match x with
      | Fin q => Fin (inject_Z (Qtrunc q))
      | _ => Fin (inject_Z (- 2 ^ 63))
      end
  | DFloat => x
  | DStr => NaN
  end.

(** [arr.astype(d, copy=False)] *)
Definition astype (a : ndarray) (d : dtype) : ndarray :=
  mk_ndarray d (arr_shape a) (map (convert d) (arr_data a)).

(** A nested Python value: a number, a list or a tuple. *)
Inductive pyobj :=
  | ONum (s : pyscalar)
  | OList (items : list pyobj)
  | OTuple (items : list pyobj).

(** The Python scalar for an element of an array of kind [d]. *)
Definition item (d : dtype) (x : xq) : pyscalar :=
  match d with
  | DBool => PyBool (negb (xeqb x (Fin 0)))
  | DInt => match x with Fin q => PyInt (Qfloor q) | _ => PyInt (- 2 ^ 63) end
  | DFloat => PyFloat x
  | DStr => PyStr ""
  end.

(** Nesting of row-major data by shape; a 0-d array unwraps to a plain
    number. *)
Fixpoint nest (wrap : list pyobj -> pyobj) (d : dtype) (shp : list nat)
    (l : list xq) : pyobj :=
  match shp with
  | [] => ONum (item d (hd NaN l))
  | n :: rest => wrap (map (nest wrap d rest) (chunks n (nprod rest) l))
  end.

(** [arr.tolist()] *)
Definition tolist (a : ndarray) : pyobj :=
  nest OList (arr_dtype a) (arr_shape a) (arr_data a).

(** Modelled from the spec: [cast_to_tuple_array] of
    [pyvista.core.utilities.arrays], the conversion to a nested tuple
    in which scalars unwrap to plain numbers. *)
Definition cast_to_tuple_array (a : ndarray) : pyobj :=
  nest OTuple (arr_dtype a) (arr_shape a) (arr_data a).

(** ** The checks of [pyvista.core.validate.array_checkers] *)

(** Modelled from the spec: [check_subdtype], the element kind must be
    a subtype of at least one of the given kinds; a type error
    otherwise. *)
Definition check_subdtype (d : dtype) (ts : list dtype_like) (name : string)
    : result unit :=
  if existsb (issubdtype d) ts then Ok tt
  else Raise (TypeError (name +:+ " has incorrect dtype.")).

(** Modelled from the spec: [check_real], the values must be real
    (integer or floating); a type error otherwise. *)
Definition check_real (a : ndarray) (name : string) : result unit :=
  if existsb (issubdtype (arr_dtype a)) [np_floating; np_integer] then Ok tt
  else Raise (TypeError (name +:+ " must have real numbers.")).

(** One shape or a list of alternatives. *)
Inductive shape_spec :=
  | OneShape (s : shape_like)
  | AnyOf (alts : list shape_like).

Definition shape_alternatives (s : shape_spec) : list shape_like :=
  match s with
  | OneShape s => [s]
  | AnyOf alts => alts
  end.

(** An actual shape against an allowed one: same rank, and each
    dimension equal unless the allowed one is [-1]. *)
Definition shape_allowed (actual : list nat) (allowed : list Z) : bool :=
  (length actual =? length allowed)%nat &&
  forallb (fun p => (snd p =? -1) || (Z.of_nat (fst p) =? snd p))
          (zip actual allowed).

Definition has_shape (a : ndarray) (spec : shape_spec) : bool :=
  existsb (fun s => shape_allowed (arr_shape a) (shape_tuple s))
          (shape_alternatives spec).

(** Modelled from the spec: [check_shape] accepts one shape or a list
    of acceptable shapes, [-1] in a dimension means any size, [()] is
    the scalar shape, an integer the 1-d shape of that length; a value
    error otherwise. *)
Definition check_shape (a : ndarray) (spec : shape_spec) (name : string)
    : result unit :=
  if has_shape a spec then Ok tt
  else Raise (ValueError (name +:+ " has an incorrect shape.")).

(** [len(arr)], where scalars count as one element when allowed. *)
Definition py_len (arr : array_like) (allow_scalar : bool) : result nat :=
  let unsized := Raise (TypeError "object has no len()") in
  match arr with
  | AScalar (PyStr s) => Ok (String.length s)
  | AScalar _ => if allow_scalar then Ok 1%nat else unsized
  | ASeq items => Ok (length items)
  | AArr a =>
      match arr_shape a with
      | [] => if allow_scalar then Ok 1%nat else unsized
      | n :: _ => Ok n
      end
  end.

Definition length_ok (n : nat) (exact_length : option (list Z))
    (min_length max_length : option Z) : bool :=
  match exact_length with
  | Some ls => existsb (Z.eqb (Z.of_nat n)) ls
  | None => true
  end &&
  match min_length with Some m => m <=? Z.of_nat n | None => true end &&
  match max_length with Some m => Z.of_nat n <=? m | None => true end.

(** Modelled from the spec: [check_length] compares the length with an
    exact length (one of several when a vector is given), a minimum
    and/or a maximum; scalars count as length-compatible; a value
    error otherwise. *)
Definition check_length (arr : array_like) (exact_length : option (list Z))
    (min_length max_length : option Z) (allow_scalar : bool) (name : string)
    : result unit :=
  do n <- py_len arr allow_scalar;
  if length_ok n exact_length min_length max_length then Ok tt
  else Raise (ValueError (name +:+ " has an incorrect length.")).

(** Modelled from the spec: [check_nonnegative]. *)
Definition check_nonnegative (a : ndarray) (name : string) : result unit :=
  if forallb (xle (Fin 0)) (arr_data a) then Ok tt
  else Raise (ValueError (name +:+ " values must all be greater than or equal to 0.")).

(** Modelled from the spec: [check_finite], no infinity and no nan. *)
Definition check_finite (a : ndarray) (name : string) : result unit :=
  if forallb is_finite (arr_data a) then Ok tt
  else Raise (ValueError (name +:+ " must have finite values.")).

(** Modelled from the spec: [check_integerlike], every value equals its
    floor, whatever the stored kind. *)
Definition check_integerlike (a : ndarray) (strict : bool) (name : string)
    : result unit :=
  if strict && negb (issubdtype (arr_dtype a) np_integer) then
    Raise (TypeError (name +:+ " must have an integer type."))
  else if forallb (fun x => xeqb x (xfloor x)) (arr_data a) then Ok tt
  else Raise (ValueError (name +:+ " must have integer-like values.")).

(** Modelled from the spec: [check_range], inclusion in a range whose
    bounds are closed or, independently, strict. *)
Definition check_range (a : ndarray) (rng : xq * xq)
    (strict_lower strict_upper : bool) (name : string) : result unit :=
  let lower_ok x := if strict_lower then xlt (fst rng) x else xle (fst rng) x in
  let upper_ok x := if strict_upper then xlt x (snd rng) else xle x (snd rng) in
  if negb (forallb lower_ok (arr_data a)) then
    Raise (ValueError (name +:+ " values are below the minimum."))
  else if negb (forallb upper_ok (arr_data a)) then
    Raise (ValueError (name +:+ " values are above the maximum."))
  else Ok tt.

(** Sortedness along axis [ax] of row-major data: every element is in
    relation [rel] with its successor along that axis. *)
Definition sorted_along (shp : list nat) (ax : nat) (rel : xq -> xq -> bool)
    (l : list xq) : bool :=
  let stride := nprod (drop (S ax) shp) in
  let n := nth ax shp 0%nat in
  forallb (fun i =>
             if ((i / stride) mod n + 1 <? n)%nat then
               match l !! i, l !! (i + stride)%nat with
               | Some x, Some y => rel x y
               | _, _ => true
               end
             else true)
          (seq 0 (length l)).

Definition order_rel (ascending strict : bool) : xq -> xq -> bool :=
  match ascending, strict with
  | true, false => xle
  | true, true => xlt
  | false, false => fun x y => xle y x
  | false, true => fun x y => xlt y x
  end.

(** Modelled from the spec: [check_sorted], ascending or descending,
    strict or not, along a chosen axis (counted from the end when
    negative); a value error otherwise. *)
Definition check_sorted (a : ndarray) (ascending strict : bool) (axis : Z)
    (name : string) : result unit :=
  let nd := Z.of_nat (arr_ndim a) in
  if nd =? 0 then Ok tt
  else if (axis <? - nd) || (nd <=? axis) then
    Raise (ValueError (name +:+ " axis is out of range."))
  else
    let ax := Z.to_nat (if axis <? 0 then axis + nd else axis) in
    if sorted_along (arr_shape a) ax (order_rel ascending strict) (arr_data a)
    then Ok tt
    else Raise (ValueError (name +:+ " must be sorted.")).

(** ** The general validator *)

(** The keyword dictionary accepted for [must_be_sorted]; an absent
    key leaves the default of [check_sorted]. *)
Record sorted_kwargs := mk_sorted_kwargs {
  kw_ascending : option bool;
  kw_strict : option bool;
  kw_axis : option Z
}.

Inductive sorted_arg :=
  | SortedFlag (b : bool)
  | SortedDict (d : sorted_kwargs).

Definition is_set {A} (o : option A) : bool :=
  match o with Some _ => true | None => false end.

(** Truth value of the [must_be_sorted] argument: an empty dictionary
    is false. *)
Definition sorted_requested (s : sorted_arg) : bool :=
  match s with
  | SortedFlag b => b
  | SortedDict d =>
      is_set (kw_ascending d) || is_set (kw_strict d)
      || is_set (kw_axis d)
  end.

(** The keyword parameters of [validate_array]. *)
Record config := mk_config {
  must_have_shape : option shape_spec;
  must_have_dtype : option (list dtype_like);
  must_have_length : option (list Z);
  must_have_min_length : option Z;
  must_have_max_length : option Z;
  must_be_nonnegative : bool;
  must_be_finite : bool;
  must_be_real : bool;
  must_be_integer_like : bool;
  must_be_sorted : sorted_arg;
  must_be_in_range : option (xq * xq);
  strict_lower_bound : bool;
  strict_upper_bound : bool;
  reshape_to : option shape_like;
  broadcast_to : option shape_like;
  dtype_out : option dtype_like;
  as_any : bool;
  copy : bool;
  to_list : bool;
  to_tuple : bool;
  name : string
}.

(** The defaults of the signature. *)
Definition default_config : config := {|
  must_have_shape := None;
  must_have_dtype := None;
  must_have_length := None;
  must_have_min_length := None;
  must_have_max_length := None;
  must_be_nonnegative := false;
  must_be_finite := false;
  must_be_real := true;
  must_be_integer_like := false;
  must_be_sorted := SortedFlag false;
  must_be_in_range := None;
  strict_lower_bound := false;
  strict_upper_bound := false;
  reshape_to := None;
  broadcast_to := None;
  dtype_out := None;
  as_any := true;
  copy := false;
  to_list := false;
  to_tuple := false;
  name := "Array"
|}.

(** What [validate_array] returns: an array, or a nested Python value
    after [to_list] / [to_tuple]. *)
Inductive output :=
  | OutArr (a : ndarray)
  | OutObj (o : pyobj).

(** The type check: real values by default, any number otherwise. *)
Definition check_type (arr_out : ndarray) (c : config) : result unit :=
  if must_be_real c then check_real arr_out (name c)
  else
    match check_subdtype (arr_dtype arr_out) [np_number] (name c) with
    | Raise (TypeError _) => Raise (TypeError (name c +:+ " must be numeric."))
    | r => r
    end.

Definition validate_array (arr : array_like) (c : config) : result output :=
  do arr_out <- cast_to_ndarray arr (as_any c) (copy c);
  (* Check type *)
  run check_type arr_out c;
  run match must_have_dtype c with
      | Some ts => check_subdtype (arr_dtype arr_out) ts (name c)
      | None => Ok tt
      end;
  (* Check shape *)
  run match must_have_shape c with
      | Some spec => check_shape arr_out spec (name c)
      | None => Ok tt
      end;
  (* Do reshape _after_ checking shape to prevent unexpected reshaping *)
  do arr_out <- match reshape_to c with
                | Some s => if shape_differs arr_out s then reshape arr_out s
                            else Ok arr_out
                | None => Ok arr_out
                end;
  do arr_out <- match broadcast_to c with
                | Some s => if shape_differs arr_out s then broadcast_to_ arr_out s
                            else Ok arr_out
                | None => Ok arr_out
                end;
  (* Check length _after_ reshaping otherwise length may be wrong *)
  run when_ (is_set (must_have_length c) || is_set (must_have_min_length c)
             || is_set (must_have_max_length c))
        (check_length arr (must_have_length c) (must_have_min_length c)
           (must_have_max_length c) true (name c));
  (* Check data values *)
  run when_ (must_be_nonnegative c) (check_nonnegative arr_out (name c));
  run when_ (must_be_finite c) (check_finite arr_out (name c));
  run when_ (must_be_integer_like c) (check_integerlike arr_out false (name c));
  run match must_be_in_range c with
      | Some rng => check_range arr_out rng (strict_lower_bound c)
                      (strict_upper_bound c) (name c)
      | None => Ok tt
      end;
  run when_ (sorted_requested (must_be_sorted c))
        match must_be_sorted c with
        | SortedDict d =>
            check_sorted arr_out (default true (kw_ascending d))
              (default false (kw_strict d)) (default (-1) (kw_axis d)) (name c)
        | SortedFlag _ => check_sorted arr_out true false (-1) (name c)
        end;
  (* Process output *)
  let arr_out := match dtype_out c with
                 | Some t => astype arr_out (np_dtype t)
                 | None => arr_out
                 end in
  if to_tuple c then Ok (OutObj (cast_to_tuple_array arr_out))
  else if to_list c then Ok (OutObj (tolist arr_out))
  else Ok (OutArr arr_out).

(** ** Keyword dictionaries *)

#[global] Instance dtype_eq_dec : EqDecision dtype.
Proof. solve_decision. Defined.
#[global] Instance dtype_like_eq_dec : EqDecision dtype_like.
Proof. solve_decision. Defined.
#[global] Instance shape_like_eq_dec : EqDecision shape_like.
Proof. solve_decision. Defined.
#[global] Instance sorted_kwargs_eq_dec : EqDecision sorted_kwargs.
Proof. solve_decision. Defined.

(** A value passed by keyword. *)
Inductive kwval :=
  | KNone
  | KBool (b : bool)
  | KInt (n : Z)
  | KStr (s : string)
  | KTuple (t : list Z)
  | KShapes (l : list shape_like)
  | KDtype (t : dtype_like)
  | KDtypes (ts : list dtype_like)
  | KRange (lo hi : xq)
  | KSorted (d : sorted_kwargs).

(** Python's [==] on keyword values; [True == 1] and [False == 0]. *)
Definition py_eqb (v w : kwval) : bool :=
  match v, w with
  | KNone, KNone => true
  | KBool a, KBool b => eqb a b
  | KBool a, KInt n | KInt n, KBool a => n =? (if a then 1 else 0)
  | KInt m, KInt n => m =? n
  | KStr s, KStr t => bool_decide (s = t)
  | KTuple s, KTuple t => bool_decide (s = t)
  | KShapes s, KShapes t => bool_decide (s = t)
  | KDtype s, KDtype t => bool_decide (s = t)
  | KDtypes s, KDtypes t => bool_decide (s = t)
  | KRange a b, KRange c d => xeqb a c && xeqb b d
  | KSorted d, KSorted e => bool_decide (d = e)
  | _, _ => false
  end.

(** Python's truth value. *)
Definition truthy (v : kwval) : bool :=
  match v with
  | KNone => false
  | KBool b => b
  | KInt n => negb (n =? 0)
  | KStr s => negb (bool_decide (s = ""))
  | KTuple t => negb (bool_decide (t = []))
  | KShapes l => negb (bool_decide (l = []))
  | KDtype _ => true
  | KDtypes ts => negb (bool_decide (ts = []))
  | KRange _ _ => true
  | KSorted d => sorted_requested (SortedDict d)
  end.

Definition join (sep : string) (l : list string) : string :=
  match l with
  | [] => ""
  | x :: r => fold_left (fun acc y => acc +:+ sep +:+ y) r x
  end.

Definition str_tuple (t : list Z) : string :=
  match t with
  | [n] => "(" +:+ pretty n +:+ ",)"
  | _ => "(" +:+ join ", " (map pretty t) +:+ ")"
  end.

Definition str_shape_like (s : shape_like) : string :=
  match s with
  | SInt n => pretty n
  | STuple t => str_tuple t
  end.

Definition str_dtype_like (t : dtype_like) : string :=
  match t with
  | py_bool => "<class 'bool'>"
  | py_int => "<class 'int'>"
  | py_float => "<class 'float'>"
  | py_str => "<class 'str'>"
  | np_integer => "<class 'numpy.integer'>"
  | np_floating => "<class 'numpy.floating'>"
  | np_number => "<class 'numpy.number'>"
  | np_type DBool => "<class 'numpy.bool_'>"
  | np_type DInt => "<class 'numpy.int64'>"
  | np_type DFloat => "<class 'numpy.float64'>"
  | np_type DStr => "<class 'numpy.str_'>"
  end.

Definition str_xq (x : xq) : string :=
  match x with
  | Fin q => pretty (Qnum q) +:+ "/" +:+ pretty (Zpos (Qden q))
  | PInf => "inf"
  | NInf => "-inf"
  | NaN => "nan"
  end.

Definition str_bool (b : bool) : string := if b then "True" else "False".

Definition str_sorted (d : sorted_kwargs) : string :=
  "{" +:+ join ", "
    (omap id [ (fun b => "'ascending': " +:+ str_bool b) <$> kw_ascending d;
               (fun b => "'strict': " +:+ str_bool b) <$> kw_strict d;
               (fun n : Z => "'axis': " +:+ pretty n) <$> kw_axis d ]) +:+ "}".

(** The text of a value inside a formatted message.  Integers, tuples,
    lists of shapes, booleans and [None] print as Python prints them;
    a finite float prints as the fraction it stands for. *)
Definition py_format (v : kwval) : string :=
  match v with
  | KNone => "None"
  | KBool b => str_bool b
  | KInt n => pretty n
  | KStr s => s
  | KTuple t => str_tuple t
  | KShapes l => "[" +:+ join ", " (map str_shape_like l) +:+ "]"
  | KDtype t => str_dtype_like t
  | KDtypes ts => "[" +:+ join ", " (map str_dtype_like ts) +:+ "]"
  | KRange lo hi => "(" +:+ str_xq lo +:+ ", " +:+ str_xq hi +:+ ")"
  | KSorted d => str_sorted d
  end.

(** [kwargs.setdefault(key, value)] *)
Definition setdefault (kwargs : gmap string kwval) (key : string) (value : kwval)
    : gmap string kwval :=
  match kwargs !! key with
  | Some _ => kwargs
  | None => <[key := value]> kwargs
  end.

Definition override_message (key calling_fname : string) (dflt : kwval) : string :=
  "Parameter '" +:+ key +:+ "' cannot be set for function `" +:+ calling_fname
  +:+ "`." +:+ String "010" "Its value is automatically set to `"
  +:+ py_format dflt +:+ "`.".

(** Set a kwarg and raise ValueError if not set to its default value.
    The name of the calling function, which the source reads off the
    call stack, is passed in. *)
Definition _set_default_kwarg_mandatory (kwargs : gmap string kwval)
    (key : string) (dflt : kwval) (calling_fname : string)
    : result (gmap string kwval) :=
  let val := default dflt (kwargs !! key) in
  let kwargs := delete key kwargs in
  if negb (py_eqb val dflt) then
    Raise (ValueError (override_message key calling_fname dflt))
  else
    Ok (<[key := dflt]> kwargs).

(** The keywords [validate_array] knows. *)
Definition validate_array_keywords : list string :=
  [ "must_have_shape"; "must_have_dtype"; "must_have_length";
    "must_have_min_length"; "must_have_max_length"; "must_be_nonnegative";
    "must_be_finite"; "must_be_real"; "must_be_integer_like"; "must_be_sorted";
    "must_be_in_range"; "strict_lower_bound"; "strict_upper_bound";
    "reshape_to"; "broadcast_to"; "dtype_out"; "as_any"; "copy"; "to_list";
    "to_tuple"; "name" ].

Definition bad_kind {A} (key : string) : result A :=
  Raise (TypeError ("invalid value for '" +:+ key +:+ "'")).

(** Readers of one keyword each; a value of a kind the parameter does
    not take is a type error. *)
Definition read_flag (kwargs : gmap string kwval) (key : string) (dflt : bool)
    : bool :=
  from_option truthy dflt (kwargs !! key).

Definition read_shape_spec (kwargs : gmap string kwval) (key : string)
    : result (option shape_spec) :=
  match kwargs !! key with
  | None | Some KNone => Ok None
  | Some (KInt n) => Ok (Some (OneShape (SInt n)))
  | Some (KTuple t) => Ok (Some (OneShape (STuple t)))
  | Some (KShapes l) => Ok (Some (AnyOf l))
  | Some _ => bad_kind key
  end.

Definition read_shape (kwargs : gmap string kwval) (key : string)
    : result (option shape_like) :=
  match kwargs !! key with
  | None | Some KNone => Ok None
  | Some (KInt n) => Ok (Some (SInt n))
  | Some (KTuple t) => Ok (Some (STuple t))
  | Some _ => bad_kind key
  end.

Definition read_dtypes (kwargs : gmap string kwval) (key : string)
    : result (option (list dtype_like)) :=
  match kwargs !! key with
  | None | Some KNone => Ok None
  | Some (KDtype t) => Ok (Some [t])
  | Some (KDtypes ts) => Ok (Some ts)
  | Some _ => bad_kind key
  end.

Definition read_dtype (kwargs : gmap string kwval) (key : string)
    : result (option dtype_like) :=
  match kwargs !! key with
  | None | Some KNone => Ok None
  | Some (KDtype t) => Ok (Some t)
  | Some _ => bad_kind key
  end.

Definition read_lengths (kwargs : gmap string kwval) (key : string)
    : result (option (list Z)) :=
  match kwargs !! key with
  | None | Some KNone => Ok None
  | Some (KInt n) => Ok (Some [n])
  | Some (KTuple t) => Ok (Some t)
  | Some _ => bad_kind key
  end.

Definition read_int (kwargs : gmap string kwval) (key : string)
    : result (option Z) :=
  match kwargs !! key with
  | None | Some KNone => Ok None
  | Some (KInt n) => Ok (Some n)
  | Some _ => bad_kind key
  end.

Definition read_range (kwargs : gmap string kwval) (key : string)
    : result (option (xq * xq)) :=
  match kwargs !! key with
  | None | Some KNone => Ok None
  | Some (KRange lo hi) => Ok (Some (lo, hi))
  | Some (KTuple [lo; hi]) => Ok (Some (Fin (inject_Z lo), Fin (inject_Z hi)))
  | Some _ => bad_kind key
  end.

Definition read_sorted (kwargs : gmap string kwval) (key : string) : sorted_arg :=
  match kwargs !! key with
  | None => SortedFlag false
  | Some (KSorted d) => SortedDict d
  | Some v => SortedFlag (truthy v)
  end.

(** Binding of a keyword dictionary to the parameters of
    [validate_array]: an unknown keyword is a type error, an absent one
    takes the default of the signature. *)
Definition config_of_kwargs (kwargs : gmap string kwval) : result config :=
  if negb (forallb (fun kv => bool_decide (fst kv ∈ validate_array_keywords))
                   (map_to_list kwargs)) then
    Raise (TypeError "validate_array() got an unexpected keyword argument")
  else
    do shape <- read_shape_spec kwargs "must_have_shape";
    do dtypes <- read_dtypes kwargs "must_have_dtype";
    do len <- read_lengths kwargs "must_have_length";
    do min_len <- read_int kwargs "must_have_min_length";
    do max_len <- read_int kwargs "must_have_max_length";
    do rng <- read_range kwargs "must_be_in_range";
    do reshape_shape <- read_shape kwargs "reshape_to";
    do broadcast_shape <- read_shape kwargs "broadcast_to";
    do out <- read_dtype kwargs "dtype_out";
    Ok {| must_have_shape := shape;
          must_have_dtype := dtypes;
          must_have_length := len;
          must_have_min_length := min_len;
          must_have_max_length := max_len;
          must_be_nonnegative := read_flag kwargs "must_be_nonnegative" false;
          must_be_finite := read_flag kwargs "must_be_finite" false;
          must_be_real := read_flag kwargs "must_be_real" true;
          must_be_integer_like := read_flag kwargs "must_be_integer_like" false;
          must_be_sorted := read_sorted kwargs "must_be_sorted";
          must_be_in_range := rng;
          strict_lower_bound := read_flag kwargs "strict_lower_bound" false;
          strict_upper_bound := read_flag kwargs "strict_upper_bound" false;
          reshape_to := reshape_shape;
          broadcast_to := broadcast_shape;
          dtype_out := out;
          as_any := read_flag kwargs "as_any" true;
          copy := read_flag kwargs "copy" false;
          to_list := read_flag kwargs "to_list" false;
          to_tuple := read_flag kwargs "to_tuple" false;
          name := from_option py_format "Array" (kwargs !! "name") |}.

(** [validate_array(arr, **kwargs)] *)
Definition validate_array_kw (arr : array_like) (kwargs : gmap string kwval)
    : result output :=
  do c <- config_of_kwargs kwargs;
  validate_array arr c.

(** ** The specialised wrappers *)

Definition validate_number (num : array_like) (reshape : bool)
    (kwargs : gmap string kwval) : result output :=
  let kwargs := setdefault kwargs "name" (KStr "Number") in
  let kwargs := setdefault kwargs "to_list" (KBool true) in
  let kwargs := setdefault kwargs "must_be_finite" (KBool true) in
  let kwargs := setdefault kwargs "must_be_real" (KBool true) in
  do kwargs <- (if reshape then
                  _set_default_kwarg_mandatory kwargs "reshape_to" (KTuple [])
                    "validate_number"
                else Ok kwargs);
  let shape := if reshape then KShapes [STuple []; STuple [1]] else KTuple [] in
  do kwargs <- _set_default_kwarg_mandatory kwargs "must_have_shape" shape
                 "validate_number";
  validate_array_kw num kwargs.

Definition validate_data_range (rng : array_like) (kwargs : gmap string kwval)
    : result output :=
  let kwargs := setdefault kwargs "name" (KStr "Data Range") in
  do kwargs <- _set_default_kwarg_mandatory kwargs "must_have_shape" (KInt 2)
                 "validate_data_range";
  do kwargs <- _set_default_kwarg_mandatory kwargs "must_be_sorted" (KBool true)
                 "validate_data_range";
  let kwargs := if negb (is_set (kwargs !! "to_list"))
                then setdefault kwargs "to_tuple" (KBool true) else kwargs in
  validate_array_kw rng kwargs.

Definition validate_arrayNx3 (arr : array_like) (reshape : bool)
    (kwargs : gmap string kwval) : result output :=
  do kwargs <- (if reshape then
                  _set_default_kwarg_mandatory kwargs "reshape_to" (KTuple [-1; 3])
                    "validate_arrayNx3"
                else Ok kwargs);
  let shape := if reshape then KShapes [SInt 3; STuple [-1; 3]]
               else KTuple [-1; 3] in
  do kwargs <- _set_default_kwarg_mandatory kwargs "must_have_shape" shape
                 "validate_arrayNx3";
  validate_array_kw arr kwargs.

Definition validate_arrayN (arr : array_like) (reshape : bool)
    (kwargs : gmap string kwval) : result output :=
  do kwargs <- (if reshape then
                  _set_default_kwarg_mandatory kwargs "reshape_to" (KInt (-1))
                    "validate_arrayN"
                else Ok kwargs);
  let shape := if reshape then KShapes [STuple []; SInt (-1); STuple [1; -1]]
               else KInt (-1) in
  do kwargs <- _set_default_kwarg_mandatory kwargs "must_have_shape" shape
                 "validate_arrayN";
  validate_array_kw arr kwargs.

(** [check_subdtype] applied to a dtype-like keyword value. *)
Definition check_subdtype_kw (v : kwval) (ts : list dtype_like) : result unit :=
  match v with
  | KDtype t => check_subdtype (np_dtype t) ts "Input"
  | _ => Raise (TypeError "Input has incorrect dtype.")
  end.

(** [v is int] *)
Definition is_int_kw (v : kwval) : bool :=
  match v with KDtype t => is_py_int t | _ => false end.

Definition validate_arrayN_uintlike (arr : array_like) (reshape : bool)
    (kwargs : gmap string kwval) : result output :=
  (* Set default dtype out but allow overriding as long as the dtype
     is also integral *)
  let kwargs := setdefault kwargs "dtype_out" (KDtype py_int) in
  let out := default KNone (kwargs !! "dtype_out") in
  run (if negb (is_int_kw out)
       then check_subdtype_kw out [np_integer] else Ok tt);
  do kwargs <- _set_default_kwarg_mandatory kwargs "must_be_integer_like"
                 (KBool true) "validate_arrayN_uintlike";
  do kwargs <- _set_default_kwarg_mandatory kwargs "must_be_nonnegative"
                 (KBool true) "validate_arrayN_uintlike";
  validate_arrayN arr reshape kwargs.

Definition validate_array3 (arr : array_like) (reshape broadcast : bool)
    (kwargs : gmap string kwval) : result output :=
  let shape := [STuple [3]] in
  do st <- (if reshape then
              do kwargs <- _set_default_kwarg_mandatory kwargs "reshape_to"
                             (KInt (-1)) "validate_array3";
              Ok (kwargs, (shape ++ [STuple [1; 3]; STuple [3; 1]])%list)
            else Ok (kwargs, shape));
  do st <- (if broadcast then
              do kwargs <- _set_default_kwarg_mandatory (fst st) "broadcast_to"
                             (KTuple [3]) "validate_array3";
              Ok (kwargs, (snd st ++ [STuple []; STuple [1]])%list)
            else Ok st);
  do kwargs <- _set_default_kwarg_mandatory (fst st) "must_have_shape"
                 (KShapes (snd st)) "validate_array3";
  validate_array_kw arr kwargs.

(** ** Axes *)

(** The array inside a validator's result.  With neither [to_list] nor
    [to_tuple] set the result is always an array; a nested Python
    value has no shape to read. *)
Definition expect_array (o : output) : result ndarray :=
  match o with
  | OutArr a => Ok a
  | OutObj _ => Raise (TypeError "object has no attribute 'shape'")
  end.

(** The rows of a 2-d array and the float array made of given rows. *)
Definition rows (a : ndarray) : list (list xq) :=
  chunks (nth 0 (arr_shape a) 0%nat) (nprod (tail (arr_shape a))) (arr_data a).

Definition of_rows (width : nat) (rs : list (list xq)) : ndarray :=
  mk_ndarray DFloat [length rs; width] (concat rs).

(** [np.cross] of two 3-vectors. *)
Definition cross (u v : list xq) : list xq :=
  match u, v with
  | [u1; u2; u3], [v1; v2; v3] =>
      [ xsub (xmul u2 v3) (xmul u3 v2);
        xsub (xmul u3 v1) (xmul u1 v3);
        xsub (xmul u1 v2) (xmul u2 v1) ]
  | _, _ => []
  end.

(** [np.dot] of two vectors. *)
Definition dot (u v : list xq) : xq :=
  match zip_with xmul u v with
  | [] => Fin 0
  | p :: ps => fold_left xadd ps p
  end.

(** [np.linalg.norm] of a vector. *)
Definition norm (u : list xq) : xq := xsqrt (dot u u).

(** [np.allclose(u, v)] *)
Definition allclose (u v : list xq) : bool :=
  forallb (fun p => isclose (fst p) (snd p)) (zip u v).

Definition vneg (u : list xq) : list xq := map xopp u.

(** Modelled from the spec: [check_contains] of
    [pyvista.core.validate.type_checkers]; the requested handedness
    must be one of the allowed names, a value error otherwise. *)
Definition check_contains (item : string) (container : list string)
    (name : string) : result unit :=
  if bool_decide (item ∈ container) then Ok tt
  else Raise (ValueError (name +:+ " '" +:+ item +:+ "' is not valid."))%string.

(** [validate_array(ax, must_have_shape=(3, 3), name=name,
    dtype_out=np.floating)] *)
Definition axes_matrix_config (name : string) : config := {|
  must_have_shape := Some (OneShape (STuple [3; 3]));
  must_have_dtype := None;
  must_have_length := None;
  must_have_min_length := None;
  must_have_max_length := None;
  must_be_nonnegative := false;
  must_be_finite := false;
  must_be_real := true;
  must_be_integer_like := false;
  must_be_sorted := SortedFlag false;
  must_be_in_range := None;
  strict_lower_bound := false;
  strict_upper_bound := false;
  reshape_to := None;
  broadcast_to := None;
  dtype_out := Some np_floating;
  as_any := true;
  copy := false;
  to_list := false;
  to_tuple := false;
  name := name
|}.

(** [validate_array3(ax, name=f"{name} Vector[i]")], as a row. *)
Definition axis_vector (ax : array_like) (name : string) (i : string)
    : result (list xq) :=
  do o <- validate_array3 ax true false
            {[ "name" := KStr (name +:+ " Vector[" +:+ i +:+ "]") ]};
  do a <- expect_array o;
  Ok (arr_data a).

(** Truth value of [must_have_orientation]. *)
Definition orientation_requested (o : option string) : bool :=
  match o with
  | Some s => negb (bool_decide (s = ""))
  | None => false
  end.

(** The second half of [validate_axes]: the checks on the assembled
    3x3 array of row vectors, and the choice of the returned frame. *)
Definition check_axes (axes_array : list (list xq))
    (normalize must_be_orthogonal : bool) (must_have_orientation : option string)
    (name : string) : result ndarray :=
  run check_finite (of_rows 3 axes_array) name;
  if isclose (dot (axes_array !!! 0%nat) (axes_array !!! 1%nat)) (Fin 1)
     || isclose (dot (axes_array !!! 0%nat) (axes_array !!! 2%nat)) (Fin 1)
  then Raise (ValueError (name +:+ " cannot be parallel."))
  else if existsb (fun r => allclose r (replicate 3 (Fin 0))) axes_array
  then Raise (ValueError (name +:+ " cannot be zeros."))
  else
    (* Check orthogonality and orientation using cross products *)
    (* Normalize axes first since norm values are needed for cross product calc *)
    let axes_norm := map (fun r => map (fun x => xdiv x (norm r)) r) axes_array in
    let cross_0_1 := cross (axes_norm !!! 0%nat) (axes_norm !!! 1%nat) in
    let cross_1_2 := cross (axes_norm !!! 1%nat) (axes_norm !!! 2%nat) in
    if must_be_orthogonal
       && negb ((allclose cross_0_1 (axes_norm !!! 2%nat)
                 || allclose cross_0_1 (vneg (axes_norm !!! 2%nat)))
                && (allclose cross_1_2 (axes_norm !!! 0%nat)
                    || allclose cross_1_2 (vneg (axes_norm !!! 0%nat))))
    then Raise (ValueError (name +:+ " are not orthogonal."))
    else
      let d := dot cross_0_1 (axes_norm !!! 2%nat) in
      if orientation_requested must_have_orientation
         && bool_decide (must_have_orientation = Some "right") && xlt d (Fin 0)
      then Raise (ValueError (name +:+ " do not have a right-handed orientation."))
      else if orientation_requested must_have_orientation
              && bool_decide (must_have_orientation = Some "left") && xlt (Fin 0) d
      then Raise (ValueError (name +:+ " do not have a left-handed orientation."))
      else if normalize then Ok (of_rows 3 axes_norm)
      else Ok (of_rows 3 axes_array).

(** The first half of [validate_axes]: the 3x3 array of row vectors
    built from one, two or three arguments. *)
Definition assemble_axes (axes : list array_like)
    (must_have_orientation : option string) (name : string)
    : result (list (list xq)) :=
  match axes with
  | [ax] =>
      do o <- validate_array ax (axes_matrix_config name);
      do a <- expect_array o;
      Ok (rows a)
  | ax0 :: ax1 :: rest =>
      let axes_array := replicate 3 (replicate 3 (Fin 0)) in
      do v0 <- axis_vector ax0 name "0";
      let axes_array := <[0%nat := v0]> axes_array in
      do v1 <- axis_vector ax1 name "1";
      let axes_array := <[1%nat := v1]> axes_array in
      match rest with
      | ax2 :: _ =>
          do v2 <- axis_vector ax2 name "2";
          Ok (<[2%nat := v2]> axes_array)
      | [] =>
          if bool_decide (must_have_orientation = Some "right") then
            Ok (<[2%nat := cross (axes_array !!! 0%nat) (axes_array !!! 1%nat)]>
                  axes_array)
          else
            Ok (<[2%nat := cross (axes_array !!! 1%nat) (axes_array !!! 0%nat)]>
                  axes_array)
      end
  | [] => Ok []  (* not reached: the argument count was checked *)
  end.

Definition validate_axes (axes : list array_like)
    (normalize must_be_orthogonal : bool) (must_have_orientation : option string)
    (name : string) : result ndarray :=
  (* Validate number of args *)
  run check_length (ASeq axes) (Some [1; 2; 3]) None None false
        (name +:+ " arguments");
  run match must_have_orientation with
      | Some o => check_contains o ["right"; "left"] (name +:+ " orientation")
      | None =>
          if (length axes =? 2)%nat then
            Raise (ValueError (name +:+ " orientation must be specified when only two vectors are given."))
          else Ok tt
      end;
  (* Validate axes array *)
  do axes_array <- assemble_axes axes must_have_orientation name;
  check_axes axes_array normalize must_be_orthogonal must_have_orientation name.

(** ** Transforms *)

(** What the transform validators accept: one of the three matrix and
    transform handles of the graphics library, given by the elements
    of its matrix in row-major order, or an array-like value. *)
Inductive transform_like :=
  | vtkMatrix4x4 (elements : list xq)
  | vtkMatrix3x3 (elements : list xq)
  | vtkTransform (elements : list xq)
  | TransformArray (arr : array_like).

(** Modelled from the spec: [array_from_vtkmatrix] of
    [pyvista.core.utilities.arrays] extracts the numeric layout of a
    native matrix as a square float array. *)
Definition array_from_vtkmatrix (n : nat) (elements : list xq) : ndarray :=
  mk_ndarray DFloat [n; n] elements.

(** [np.eye(n)] *)
Definition eye (n : nat) : ndarray :=
  mk_ndarray DFloat [n; n]
    (flat_map (fun i => map (fun j => Fin (if (i =? j)%nat then 1 else 0))
                            (seq 0 n))
              (seq 0 n)).

(** [arr[:3, :3] = block] on a 4x4 float array. *)
Definition set_block3 (arr block : ndarray) : ndarray :=
  mk_ndarray (arr_dtype arr) (arr_shape arr)
    (imap (fun k old =>
             let i := (k / 4)%nat in
             let j := (k mod 4)%nat in
             if (i <? 3)%nat && (j <? 3)%nat
             then default old (arr_data block !! (3 * i + j)%nat)
             else old)
          (arr_data arr)).

(** [validate_array(transform, must_have_shape=[(3, 3), (4, 4)],
    must_be_finite=True, name=name)] *)
Definition transform_config (name : string) : config := {|
  must_have_shape := Some (AnyOf [STuple [3; 3]; STuple [4; 4]]);
  must_have_dtype := None;
  must_have_length := None;
  must_have_min_length := None;
  must_have_max_length := None;
  must_be_nonnegative := false;
  must_be_finite := true;
  must_be_real := true;
  must_be_integer_like := false;
  must_be_sorted := SortedFlag false;
  must_be_in_range := None;
  strict_lower_bound := false;
  strict_upper_bound := false;
  reshape_to := None;
  broadcast_to := None;
  dtype_out := None;
  as_any := true;
  copy := false;
  to_list := false;
  to_tuple := false;
  name := name
|}.

Definition transform4x4_message : string :=
  "Input transform must be one of:" +:+ String "010" (String "009" "vtkMatrix4x4")
  +:+ String "010" (String "009" "vtkMatrix3x3")
  +:+ String "010" (String "009" "vtkTransform")
  +:+ String "010" (String "009" "4x4 np.ndarray")
  +:+ String "010" (String "009" "3x3 np.ndarray") +:+ String "010" "".

Definition validate_transform4x4 (transform : transform_like) (name : string)
    : result ndarray :=
  let arr := eye 4 in  (* initialize *)
  match transform with
  | vtkMatrix4x4 m => Ok (array_from_vtkmatrix 4 m)
  | vtkMatrix3x3 m => Ok (set_block3 arr (array_from_vtkmatrix 3 m))
  | vtkTransform m => Ok (array_from_vtkmatrix 4 m)
  | TransformArray transform =>
      except_ValueError
        (do o <- validate_array transform (transform_config name);
         do valid_arr <- expect_array o;
         if bool_decide (arr_shape valid_arr = [3; 3]%nat) then
           Ok (set_block3 arr valid_arr)
         else Ok valid_arr)
        (TypeError transform4x4_message)
  end.

(** ** Predicates used in the statements *)

(** The two element-type checks at the head of [validate_array]. *)
Definition dtype_checks (a : ndarray) (c : config) : result unit :=
  run check_type a c;
  match must_have_dtype c with
  | Some ts => check_subdtype (arr_dtype a) ts (name c)
  | None => Ok tt
  end.

(** No output transform is requested. *)
Definition no_transform (c : config) : Prop :=
  reshape_to c = None /\ broadcast_to c = None /\ dtype_out c = None
  /\ to_list c = false /\ to_tuple c = false.

(** The array [a], given as [arr], meets every constraint that [c]
    requests. *)
Definition satisfies (c : config) (arr : array_like) (a : ndarray) : Prop :=
  dtype_checks a c = Ok tt
  /\ (forall spec, must_have_shape c = Some spec -> has_shape a spec = true)
  /\ (is_set (must_have_length c) || is_set (must_have_min_length c)
      || is_set (must_have_max_length c) = true ->
      exists n, py_len arr true = Ok n
                /\ length_ok n (must_have_length c) (must_have_min_length c)
                     (must_have_max_length c) = true)
  /\ (must_be_nonnegative c = true -> forallb (xle (Fin 0)) (arr_data a) = true)
  /\ (must_be_finite c = true -> forallb is_finite (arr_data a) = true)
  /\ (must_be_integer_like c = true ->
      forallb (fun x => xeqb x (xfloor x)) (arr_data a) = true)
  /\ (forall rng, must_be_in_range c = Some rng ->
      check_range a rng (strict_lower_bound c) (strict_upper_bound c) (name c)
      = Ok tt)
  /\ (sorted_requested (must_be_sorted c) = true ->
      match must_be_sorted c with
      | SortedDict d =>
          check_sorted a (default true (kw_ascending d))
            (default false (kw_strict d)) (default (-1) (kw_axis d)) (name c)
      | SortedFlag _ => check_sorted a true false (-1) (name c)
      end = Ok tt).



(** A sequence of Python integers. *)
Definition ints (l : list Z) : array_like :=
  ASeq (map (fun z => AScalar (PyInt z)) l).

(** The input [[1, 2, 3, 4]] with [must_have_shape=(2, 2)] and
    [reshape_to=(2, 2)]: the reshape would give the allowed shape. *)
Definition c1_config : config := {|
  must_have_shape := Some (OneShape (STuple [2; 2]));
  must_have_dtype := None;
  must_have_length := None;
  must_have_min_length := None;
  must_have_max_length := None;
  must_be_nonnegative := false;
  must_be_finite := false;
  must_be_real := true;
  must_be_integer_like := false;
  must_be_sorted := SortedFlag false;
  must_be_in_range := None;
  strict_lower_bound := false;
  strict_upper_bound := false;
  reshape_to := Some (STuple [2; 2]);
  broadcast_to := None;
  dtype_out := None;
  as_any := true;
  copy := false;
  to_list := false;
  to_tuple := false;
  name := "Array"
|}.


(** The constraints of the docstring example of [validate_array] (a
    1-d array of at least two elements, strictly ascending, within
    [(0, 20)]), with the sign, finiteness and integer checks on as
    well. *)
Definition c9_config : config := {|
  must_have_shape := Some (OneShape (SInt (-1)));
  must_have_dtype := None;
  must_have_length := None;
  must_have_min_length := Some 2;
  must_have_max_length := None;
  must_be_nonnegative := true;
  must_be_finite := true;
  must_be_real := true;
  must_be_integer_like := true;
  must_be_sorted := SortedDict (mk_sorted_kwargs None (Some true) None);
  must_be_in_range := Some (Fin 0, Fin (inject_Z 20));
  strict_lower_bound := false;
  strict_upper_bound := false;
  reshape_to := None;
  broadcast_to := None;
  dtype_out := None;
  as_any := true;
  copy := false;
  to_list := false;
  to_tuple := false;
  name := "Array"
|}.


(** The parameters [validate_data_range] passes on when called with
    the range alone. *)
Definition data_range_config : config := {|
  must_have_shape := Some (OneShape (SInt 2));
  must_have_dtype := None;
  must_have_length := None;
  must_have_min_length := None;
  must_have_max_length := None;
  must_be_nonnegative := false;
  must_be_finite := false;
  must_be_real := true;
  must_be_integer_like := false;
  must_be_sorted := SortedFlag true;
  must_be_in_range := None;
  strict_lower_bound := false;
  strict_upper_bound := false;
  reshape_to := None;
  broadcast_to := None;
  dtype_out := None;
  as_any := true;
  copy := false;
  to_list := false;
  to_tuple := true;
  name := "Data Range"
|}.





(** A sequence of Python floats. *)
Definition floats (l : list Q) : array_like :=
  ASeq (map (fun q => AScalar (PyFloat (Fin q))) l).

(** The specialised wrappers with their own flags. *)
Inductive wrapper :=
  | W_number (reshape : bool)
  | W_data_range
  | W_arrayNx3 (reshape : bool)
  | W_arrayN (reshape : bool)
  | W_arrayN_uintlike (reshape : bool)
  | W_array3 (reshape broadcast : bool).

Definition call_wrapper (w : wrapper) (arr : array_like)
    (kwargs : gmap string kwval) : result output :=
  match w with
  | W_number reshape => validate_number arr reshape kwargs
  | W_data_range => validate_data_range arr kwargs
  | W_arrayNx3 reshape => validate_arrayNx3 arr reshape kwargs
  | W_arrayN reshape => validate_arrayN arr reshape kwargs
  | W_arrayN_uintlike reshape => validate_arrayN_uintlike arr reshape kwargs
  | W_array3 reshape broadcast => validate_array3 arr reshape broadcast kwargs
  end.

(** The constraints a wrapper pins, in the order in which it sets
    them: keyword, pinned value, and the function that sets it (whose
    name the error message carries). *)
Definition pinned_arrayN (reshape : bool) : list (string * kwval * string) :=
  (if reshape then [("reshape_to", KInt (-1), "validate_arrayN")] else [])
  ++ [("must_have_shape",
       if reshape then KShapes [STuple []; SInt (-1); STuple [1; -1]]
       else KInt (-1),
       "validate_arrayN")].

Definition pinned (w : wrapper) : list (string * kwval * string) :=
  match w with
  | W_number reshape =>
      (if reshape then [("reshape_to", KTuple [], "validate_number")] else [])
      ++ [("must_have_shape",
           if reshape then KShapes [STuple []; STuple [1]] else KTuple [],
           "validate_number")]
  | W_data_range =>
      [("must_have_shape", KInt 2, "validate_data_range");
       ("must_be_sorted", KBool true, "validate_data_range")]
  | W_arrayNx3 reshape =>
      (if reshape then [("reshape_to", KTuple [-1; 3], "validate_arrayNx3")]
       else [])
      ++ [("must_have_shape",
           if reshape then KShapes [SInt 3; STuple [-1; 3]] else KTuple [-1; 3],
           "validate_arrayNx3")]
  | W_arrayN reshape => pinned_arrayN reshape
  | W_arrayN_uintlike reshape =>
      [("must_be_integer_like", KBool true, "validate_arrayN_uintlike");
       ("must_be_nonnegative", KBool true, "validate_arrayN_uintlike")]
      ++ pinned_arrayN reshape
  | W_array3 reshape broadcast =>
      (if reshape then [("reshape_to", KInt (-1), "validate_array3")] else [])
      ++ (if broadcast then [("broadcast_to", KTuple [3], "validate_array3")]
          else [])
      ++ [("must_have_shape",
           KShapes ([STuple [3]]
                    ++ (if reshape then [STuple [1; 3]; STuple [3; 1]] else [])
                    ++ (if broadcast then [STuple []; STuple [1]] else [])),
           "validate_array3")]
  end%list.

(** The caller overrides the pinned constraint [p]: the keyword is
    present with a value different from the pinned one. *)
Definition overrides (kwargs : gmap string kwval) (p : string * kwval * string)
    : Prop :=
  exists v, kwargs !! (fst (fst p)) = Some v /\ py_eqb v (snd (fst p)) = false.


(** Setting several pinned constraints in turn. *)
Fixpoint pin_all (kwargs : gmap string kwval) (pins : list (string * kwval * string))
    : result (gmap string kwval) :=
  match pins with
  | [] => Ok kwargs
  | (key, dflt, fname) :: rest =>
      do kwargs <- _set_default_kwarg_mandatory kwargs key dflt fname;
      pin_all kwargs rest
  end.

(** A row vector, kept as it is or divided by its norm. *)
Definition scaled (normalize : bool) (v : list xq) : list xq :=
  if normalize then map (fun x => xdiv x (norm v)) v else v.

(** The closeness test of [np.isclose], on rationals. *)
Definition close (c n : Q) : Prop :=
  (Qabs (c - n) <= atol + rtol * Qabs n)%Q.


(** The axis vectors supplied to [validate_axes], by their components:
    the three rows of a single 3x3 argument, or the two or three
    arguments each validated as a 3-vector. *)
Inductive supplied_axes (name : string) : list array_like -> list (list xq) -> Prop :=
  | supplied_matrix (ax : array_like) (a : ndarray) :
      validate_array ax (axes_matrix_config name) = Ok (OutArr a) ->
      arr_shape a = [3; 3]%nat ->
      length (arr_data a) = 9%nat ->
      supplied_axes name [ax] (rows a)
  | supplied_two (ax0 ax1 : array_like) (v0 v1 : list xq) :
      axis_vector ax0 name "0" = Ok v0 -> length v0 = 3%nat ->
      axis_vector ax1 name "1" = Ok v1 -> length v1 = 3%nat ->
      supplied_axes name [ax0; ax1] [v0; v1]
  | supplied_three (ax0 ax1 ax2 : array_like) (v0 v1 v2 : list xq) :
      axis_vector ax0 name "0" = Ok v0 -> length v0 = 3%nat ->
      axis_vector ax1 name "1" = Ok v1 -> length v1 = 3%nat ->
      axis_vector ax2 name "2" = Ok v2 -> length v2 = 3%nat ->
      supplied_axes name [ax0; ax1; ax2] [v0; v1; v2].


(** ** The 3x3 transform validator *)

(** What [validate_transform3x3] accepts: the 3x3 matrix handle of the
    graphics library, given by its elements in row-major order, or an
    array-like value. *)
Inductive transform3x3_like :=
  | Matrix3x3 (elements : list xq)
  | Array3x3 (arr : array_like).

(** [arr[:3, :3] = block] on a float array with [width] columns. *)
Definition set_block (width : nat) (arr block : ndarray) : ndarray :=
  mk_ndarray (arr_dtype arr) (arr_shape arr)
    (imap (fun k old =>
             let i := (k / width)%nat in
             let j := (k mod width)%nat in
             if (i <? 3)%nat && (j <? 3)%nat
             then default old (arr_data block !! (3 * i + j)%nat)
             else old)
          (arr_data arr)).

(** [validate_array(transform, must_have_shape=(3, 3), name=name)] *)
Definition transform3x3_config (name : string) : config := {|
  must_have_shape := Some (OneShape (STuple [3; 3]));
  must_have_dtype := None;
  must_have_length := None;
  must_have_min_length := None;
  must_have_max_length := None;
  must_be_nonnegative := false;
  must_be_finite := false;
  must_be_real := true;
  must_be_integer_like := false;
  must_be_sorted := SortedFlag false;
  must_be_in_range := None;
  strict_lower_bound := false;
  strict_upper_bound := false;
  reshape_to := None;
  broadcast_to := None;
  dtype_out := None;
  as_any := true;
  copy := false;
  to_list := false;
  to_tuple := false;
  name := name
|}.

Definition transform3x3_message : string :=
  "Input transform must be one of:" +:+ String "010" (String "009" "vtkMatrix3x3")
  +:+ String "010" (String "009" "3x3 np.ndarray") +:+ String "010" "".

Definition validate_transform3x3 (transform : transform3x3_like) (name : string)
    : result ndarray :=
  let arr := eye 3 in  (* initialize *)
  match transform with
  | Matrix3x3 m => Ok (set_block 3 arr (array_from_vtkmatrix 3 m))
  | Array3x3 transform =>
      except_ValueError
        (do o <- validate_array transform (transform3x3_config name);
         expect_array o)
        (TypeError transform3x3_message)
  end.

(** ** The stages of [validate_array] *)

(** The element list matches the shape. *)
Definition well_formed (a : ndarray) : Prop :=
  length (arr_data a) = arr_size a.

(** The optional reshape. *)
Definition reshape_stage (c : config) (a : ndarray) : result ndarray :=
  match reshape_to c with
  | Some s => if shape_differs a s then reshape a s else Ok a
  | None => Ok a
  end.

(** The optional broadcast. *)
Definition broadcast_stage (c : config) (a : ndarray) : result ndarray :=
  match broadcast_to c with
  | Some s => if shape_differs a s then broadcast_to_ a s else Ok a
  | None => Ok a
  end.

(** The checks on the element values, in the order of the source. *)
Definition value_checks (c : config) (a : ndarray) : result unit :=
  run when_ (must_be_nonnegative c) (check_nonnegative a (name c));
  run when_ (must_be_finite c) (check_finite a (name c));
  run when_ (must_be_integer_like c) (check_integerlike a false (name c));
  run match must_be_in_range c with
      | Some rng => check_range a rng (strict_lower_bound c)
                      (strict_upper_bound c) (name c)
      | None => Ok tt
      end;
  when_ (sorted_requested (must_be_sorted c))
    match must_be_sorted c with
    | SortedDict d =>
        check_sorted a (default true (kw_ascending d))
          (default false (kw_strict d)) (default (-1) (kw_axis d)) (name c)
    | SortedFlag _ => check_sorted a true false (-1) (name c)
    end.

(** The cast of the element kind and the choice of the container. *)
Definition process_output (c : config) (a : ndarray) : output :=
  let a := match dtype_out c with
           | Some t => astype a (np_dtype t)
           | None => a
           end in
  if to_tuple c then OutObj (cast_to_tuple_array a)
  else if to_list c then OutObj (tolist a)
  else OutArr a.

(** The length check when one of the three length options is set. *)
Definition length_stage (c : config) (arr : array_like) : result unit :=
  when_ (is_set (must_have_length c) || is_set (must_have_min_length c)
         || is_set (must_have_max_length c))
    (check_length arr (must_have_length c) (must_have_min_length c)
       (must_have_max_length c) true (name c)).

(** A 3x3 float array of ones with a nan in its centre. *)
Definition nan_matrix : ndarray :=
  mk_ndarray DFloat [3; 3]%nat
    [Fin 1; Fin 1; Fin 1; Fin 1; NaN; Fin 1; Fin 1; Fin 1; Fin 1].

(** ** The three steps of a wrapper *)

(** What a wrapper looks at before it sets its pinned constraints:
    only [validate_arrayN_uintlike] has such a step, the test of
    [dtype_out]. *)
Definition pre_check (w : wrapper) (kwargs : gmap string kwval) : result unit :=
  match w with
  | W_arrayN_uintlike _ =>
      let out := default KNone
                   (setdefault kwargs "dtype_out" (KDtype py_int) !! "dtype_out") in
      if negb (is_int_kw out) then check_subdtype_kw out [np_integer] else Ok tt
  | _ => Ok tt
  end.

(** The defaults a wrapper adds for keywords it does not pin. *)
Definition prepare (w : wrapper) (kwargs : gmap string kwval)
    : gmap string kwval :=
  match w with
  | W_number _ =>
      setdefault
        (setdefault
           (setdefault (setdefault kwargs "name" (KStr "Number"))
              "to_list" (KBool true))
           "must_be_finite" (KBool true))
        "must_be_real" (KBool true)
  | W_data_range => setdefault kwargs "name" (KStr "Data Range")
  | W_arrayN_uintlike _ => setdefault kwargs "dtype_out" (KDtype py_int)
  | _ => kwargs
  end.

(** The call of the general validator that ends a wrapper. *)
Definition finish_call (w : wrapper) (arr : array_like)
    (kwargs : gmap string kwval) : result output :=
  match w with
  | W_data_range =>
      validate_array_kw arr
        (if negb (is_set (kwargs !! "to_list"))
         then setdefault kwargs "to_tuple" (KBool true) else kwargs)
  | _ => validate_array_kw arr kwargs
  end.

(** The parameters [validate_number] passes on when called with the
    number (and [reshape]) alone. *)
Definition number_config (reshape : bool) : config := {|
  must_have_shape :=
    Some (if reshape then AnyOf [STuple []; STuple [1]] else OneShape (STuple []));
  must_have_dtype := None;
  must_have_length := None;
  must_have_min_length := None;
  must_have_max_length := None;
  must_be_nonnegative := false;
  must_be_finite := true;
  must_be_real := true;
  must_be_integer_like := false;
  must_be_sorted := SortedFlag false;
  must_be_in_range := None;
  strict_lower_bound := false;
  strict_upper_bound := false;
  reshape_to := if reshape then Some (STuple []) else None;
  broadcast_to := None;
  dtype_out := None;
  as_any := true;
  copy := false;
  to_list := true;
  to_tuple := false;
  name := "Number"
|}.

(** The element kind is integer or floating. *)
Definition real_kind (d : dtype) : bool :=
  dtype_eqb d DInt || dtype_eqb d DFloat.

(** ** The rows [validate_axes] checks *)

(** The three rows of the axes array: the supplied vectors, two of
    them completed by their cross product in the order the handedness
    fixes. *)
Definition frame_rows (must_have_orientation : option string)
    (vs : list (list xq)) : list (list xq) :=
  match vs with
  | [v0; v1] =>
      [v0; v1;
       if bool_decide (must_have_orientation = Some "right")
       then cross v0 v1 else cross v1 v0]
  | _ => vs
  end.
(** * Properties *)

(** ** The examples of the docstrings *)

Example config_of_no_kwargs : config_of_kwargs ∅ = Ok default_config.
Proof. reflexivity. Qed.

Example validate_array_docstring :
  validate_array_kw (ints [1; 2; 3; 5; 8; 13])
    {[ "must_have_shape" := KInt (-1);
       "must_have_min_length" := KInt 2;
       "must_be_sorted" := KSorted (mk_sorted_kwargs None (Some true) None);
       "must_be_in_range" := KTuple [0; 20] ]}
  = Ok (OutArr (mk_ndarray DInt [6%nat]
                  [Fin 1; Fin 2; Fin 3; Fin 5; Fin 8; Fin 13])).
Proof. vm_compute. reflexivity. Qed.

Example validate_number_docstring :
  validate_number (AScalar (PyInt 1)) true ∅ = Ok (OutObj (ONum (PyInt 1)))
  /\ validate_number (floats [42%Q]) true ∅
     = Ok (OutObj (ONum (PyFloat (Fin 42))))
  /\ validate_number (AScalar (PyInt 10)) true
       {[ "must_be_in_range" := KTuple [0; 10];
          "must_be_integer_like" := KBool true ]}
     = Ok (OutObj (ONum (PyInt 10))).
Proof. vm_compute. repeat split. Qed.

Example validate_data_range_docstring :
  validate_data_range (ints [-5; 5]) ∅
  = Ok (OutObj (OTuple [ONum (PyInt (-5)); ONum (PyInt 5)]))
  /\ validate_data_range (ASeq [AScalar (PyInt 0); AScalar (PyFloat (Fin 1))])
       {[ "must_be_nonnegative" := KBool true ]}
     = Ok (OutObj (OTuple [ONum (PyFloat (Fin 0)); ONum (PyFloat (Fin 1))])).
Proof. vm_compute. repeat split. Qed.

Example validate_arrayNx3_docstring :
  validate_arrayNx3 (ASeq [ints [1; 2; 3]; ints [4; 5; 6]]) true ∅
  = Ok (OutArr (mk_ndarray DInt [2; 3]%nat
                  [Fin 1; Fin 2; Fin 3; Fin 4; Fin 5; Fin 6]))
  /\ validate_arrayNx3 (ints [1; 2; 3]) true ∅
     = Ok (OutArr (mk_ndarray DInt [1; 3]%nat [Fin 1; Fin 2; Fin 3])).
Proof. vm_compute. repeat split. Qed.

Example validate_arrayN_docstring :
  validate_arrayN (ints [1; 2; 3; 4]) true ∅
  = Ok (OutArr (mk_ndarray DInt [4%nat] [Fin 1; Fin 2; Fin 3; Fin 4]))
  /\ validate_arrayN (AScalar (PyFloat (Fin 42))) true ∅
     = Ok (OutArr (mk_ndarray DFloat [1%nat] [Fin 42]))
  /\ validate_arrayN (ASeq [ints [1; 2]]) true ∅
     = Ok (OutArr (mk_ndarray DInt [2%nat] [Fin 1; Fin 2]))
  /\ validate_arrayN (ints [1; 2; 3]) true {[ "must_have_length" := KInt 3 ]}
     = Ok (OutArr (mk_ndarray DInt [3%nat] [Fin 1; Fin 2; Fin 3])).
Proof. vm_compute. repeat split. Qed.

Example validate_arrayN_uintlike_docstring :
  validate_arrayN_uintlike (floats [1; 2; 3; 4]%Q) true ∅
  = Ok (OutArr (mk_ndarray DInt [4%nat] [Fin 1; Fin 2; Fin 3; Fin 4]))
  /\ validate_arrayN_uintlike (AScalar (PyInt 42)) true ∅
     = Ok (OutArr (mk_ndarray DInt [1%nat] [Fin 42]))
  /\ validate_arrayN_uintlike (ASeq [ints [1; 2]]) true ∅
     = Ok (OutArr (mk_ndarray DInt [2%nat] [Fin 1; Fin 2]))
  /\ validate_arrayN_uintlike (ints [1; 2; 3]) true
       {[ "must_be_in_range" := KTuple [1; 3] ]}
     = Ok (OutArr (mk_ndarray DInt [3%nat] [Fin 1; Fin 2; Fin 3])).
Proof. vm_compute. repeat split. Qed.

Example validate_array3_docstring :
  validate_array3 (ints [1; 2; 3]) true false ∅
  = Ok (OutArr (mk_ndarray DInt [3%nat] [Fin 1; Fin 2; Fin 3]))
  /\ validate_array3 (ASeq [ints [1; 2; 3]]) true false ∅
     = Ok (OutArr (mk_ndarray DInt [3%nat] [Fin 1; Fin 2; Fin 3]))
  /\ validate_array3 (AScalar (PyFloat (Fin 42))) true true ∅
     = Ok (OutArr (mk_ndarray DFloat [3%nat] [Fin 42; Fin 42; Fin 42]))
  /\ validate_array3 (ints [1; 2; 3]) true false
       {[ "must_be_nonnegative" := KBool true ]}
     = Ok (OutArr (mk_ndarray DInt [3%nat] [Fin 1; Fin 2; Fin 3])).
Proof. vm_compute. repeat split. Qed.

Example validate_axes_docstring :
  validate_axes [AArr (eye 3)] true true (Some "right") "Axes" = Ok (eye 3)
  /\ validate_axes [ints [1; 0; 0]; ints [0; 1; 0]] true true (Some "left") "Axes"
     = Ok (mk_ndarray DFloat [3; 3]%nat
             [Fin 1; Fin 0; Fin 0; Fin 0; Fin 1; Fin 0; Fin 0; Fin 0; Fin (-1)]).
Proof. vm_compute. repeat split. Qed.

(** ** The general validator *)

Lemma dtype_checks_ok (a : ndarray) (c : config) :
  dtype_checks a c = Ok tt ->
  check_type a c = Ok tt
  /\ match must_have_dtype c with
     | Some ts => check_subdtype (arr_dtype a) ts (name c)
     | None => Ok tt
     end = Ok tt.
Proof.
  unfold dtype_checks. destruct (check_type a c) as [[]|e]; simpl.
  - intros H. split; [reflexivity | exact H].
  - discriminate.
Qed.

(** C1: the shape check runs on the input's original shape, before any
    reshape.  An input of acceptable element type whose original shape
    is not among the allowed shapes raises the shape value error,
    whatever [reshape_to] (or any other option) asks for. *)
Theorem C1_shape_checked_before_reshape (arr : array_like) (c : config)
    (a : ndarray) (spec : shape_spec) :
  cast_to_ndarray arr (as_any c) (copy c) = Ok a ->
  dtype_checks a c = Ok tt ->
  must_have_shape c = Some spec ->
  has_shape a spec = false ->
  validate_array arr c
  = Raise (ValueError (name c +:+ " has an incorrect shape.")).
Proof.
  intros Hcast Hty Hspec Hshape.
  apply dtype_checks_ok in Hty as [Hty Hdt].
  unfold validate_array.
  rewrite Hcast; simpl. rewrite Hty; simpl. rewrite Hdt; simpl.
  rewrite Hspec. unfold check_shape. rewrite Hshape. reflexivity.
Qed.

Lemma C1_witness :
  (exists r, reshape (mk_ndarray DInt [4%nat] [Fin 1; Fin 2; Fin 3; Fin 4])
               (STuple [2; 2]) = Ok r
             /\ has_shape r (OneShape (STuple [2; 2])) = true)
  /\ validate_array (ints [1; 2; 3; 4]) c1_config
     = Raise (ValueError "Array has an incorrect shape.").
Proof.
  split.
  - eexists. split; reflexivity.
  - apply (C1_shape_checked_before_reshape (ints [1; 2; 3; 4]) c1_config
             (mk_ndarray DInt [4%nat] [Fin 1; Fin 2; Fin 3; Fin 4])
             (OneShape (STuple [2; 2]))); reflexivity.
Defined.

(** C2: the length check receives the original input, not the array
    after reshaping and broadcasting.  The nested sequence [[[1, 2, 3]]]
    reshaped to one dimension has length 3, and [check_length] accepts
    that array for [must_have_length=3]; [validate_array] nevertheless
    raises, because it measures the input, whose length is 1, and for
    the same reason it accepts [must_have_length=1].  The same happens
    through [validate_array3]. *)
Theorem C2_length_checked_on_input :
  let arr := ASeq [ints [1; 2; 3]] in
  let reshaped := mk_ndarray DInt [3%nat] [Fin 1; Fin 2; Fin 3] in
  validate_array_kw arr {[ "reshape_to" := KInt (-1) ]} = Ok (OutArr reshaped)
  /\ check_length (AArr reshaped) (Some [3]) None None true "Array" = Ok tt
  /\ validate_array_kw arr
       {[ "reshape_to" := KInt (-1); "must_have_length" := KInt 3 ]}
     = Raise (ValueError "Array has an incorrect length.")
  /\ validate_array_kw arr
       {[ "reshape_to" := KInt (-1); "must_have_length" := KInt 1 ]}
     = Ok (OutArr reshaped)
  /\ validate_array3 arr true false {[ "must_have_length" := KInt 3 ]}
     = Raise (ValueError "Array has an incorrect length.").
Proof. vm_compute. repeat split. Qed.

(** C9: with no transform requested, an array that meets every
    requested constraint is returned as it is. *)
Theorem C9_valid_input_returned_unchanged (arr : array_like) (c : config)
    (a : ndarray) :
  no_transform c ->
  cast_to_ndarray arr (as_any c) (copy c) = Ok a ->
  satisfies c arr a ->
  validate_array arr c = Ok (OutArr a).
Proof.
  intros (Hre & Hbr & Hdt & Hlist & Htuple) Hcast
         (Hty & Hshape & Hlen & Hnn & Hfin & Hint & Hrng & Hsort).
  apply dtype_checks_ok in Hty as [Hty Hdty].
  unfold validate_array.
  rewrite Hcast; simpl. rewrite Hty; simpl. rewrite Hdty; simpl.
  rewrite Hre, Hbr, Hdt, Hlist, Htuple.
  assert (Hs : match must_have_shape c with
               | Some spec => check_shape a spec (name c)
               | None => Ok tt
               end = Ok tt).
  { destruct (must_have_shape c) as [spec|]; [|reflexivity].
    unfold check_shape. rewrite (Hshape spec eq_refl). reflexivity. }
  rewrite Hs; simpl.
  assert (Hl : when_ (is_set (must_have_length c)
                      || is_set (must_have_min_length c)
                      || is_set (must_have_max_length c))
                 (check_length arr (must_have_length c) (must_have_min_length c)
                    (must_have_max_length c) true (name c)) = Ok tt).
  { destruct (is_set (must_have_length c) || is_set (must_have_min_length c)
              || is_set (must_have_max_length c)) eqn:E; [|reflexivity].
    destruct (Hlen eq_refl) as (n & Hn & Hok).
    simpl. unfold check_length. rewrite Hn; simpl. rewrite Hok. reflexivity. }
  rewrite Hl; simpl.
  assert (Hn : when_ (must_be_nonnegative c) (check_nonnegative a (name c)) = Ok tt).
  { destruct (must_be_nonnegative c); [|reflexivity].
    simpl. unfold check_nonnegative. rewrite (Hnn eq_refl). reflexivity. }
  rewrite Hn; simpl.
  assert (Hf : when_ (must_be_finite c) (check_finite a (name c)) = Ok tt).
  { destruct (must_be_finite c); [|reflexivity].
    simpl. unfold check_finite. rewrite (Hfin eq_refl). reflexivity. }
  rewrite Hf; simpl.
  assert (Hi : when_ (must_be_integer_like c)
                 (check_integerlike a false (name c)) = Ok tt).
  { destruct (must_be_integer_like c); [|reflexivity].
    simpl. unfold check_integerlike. simpl. rewrite (Hint eq_refl). reflexivity. }
  rewrite Hi; simpl.
  assert (Hr : match must_be_in_range c with
               | Some rng => check_range a rng (strict_lower_bound c)
                               (strict_upper_bound c) (name c)
               | None => Ok tt
               end = Ok tt).
  { destruct (must_be_in_range c) as [rng|]; [|reflexivity].
    apply Hrng. reflexivity. }
  rewrite Hr; simpl.
  destruct (sorted_requested (must_be_sorted c)) eqn:E; simpl.
  - rewrite (Hsort eq_refl). reflexivity.
  - reflexivity.
Qed.

Lemma C9_witness :
  validate_array (ints [1; 2; 3; 5; 8; 13]) c9_config
  = Ok (OutArr (mk_ndarray DInt [6%nat]
                  [Fin 1; Fin 2; Fin 3; Fin 5; Fin 8; Fin 13])).
Proof.
  apply (C9_valid_input_returned_unchanged (ints [1; 2; 3; 5; 8; 13]) c9_config).
  - repeat split.
  - reflexivity.
  - unfold satisfies. split; [reflexivity|].
    split; [intros spec [= <-]; reflexivity|].
    split; [intros _; exists 6%nat; split; reflexivity|].
    split; [intros _; reflexivity|].
    split; [intros _; reflexivity|].
    split; [intros _; reflexivity|].
    split; [intros rng [= <-]; reflexivity|].
    intros _. reflexivity.
Defined.




(** ** The wrappers with their defaults *)

Lemma data_range_default arr : validate_data_range arr ∅ = validate_array arr data_range_config.
Proof. reflexivity. Qed.







Lemma resolve_shape_flat (n : nat) : resolve_shape n [-1] = Ok [n].
Proof.
  unfold resolve_shape. cbn. rewrite Z.mod_1_r, Z.div_1_r, Nat2Z.id. reflexivity.
Qed.






(** ** Transforms *)

Lemma shape_allowed_33 (s : list nat) :
  shape_allowed s [3; 3] = true <-> s = [3; 3]%nat.
Proof.
  split; [|intros ->; reflexivity].
  destruct s as [|x [|y [|? ?]]]; try discriminate. cbn.
  intros H. apply andb_true_iff in H as [Hx H]. apply andb_true_iff in H as [Hy _].
  apply Z.eqb_eq in Hx, Hy. f_equal; [|f_equal]; lia.
Qed.

Lemma shape_allowed_44 (s : list nat) :
  shape_allowed s [4; 4] = true <-> s = [4; 4]%nat.
Proof.
  split; [|intros ->; reflexivity].
  destruct s as [|x [|y [|? ?]]]; try discriminate. cbn.
  intros H. apply andb_true_iff in H as [Hx H]. apply andb_true_iff in H as [Hy _].
  apply Z.eqb_eq in Hx, Hy. f_equal; [|f_equal]; lia.
Qed.

(** C7: for an array-like value that converts to the array [a]:
    when [a] is a finite real (3, 3) array, [validate_transform4x4]
    returns the 4x4 array whose upper-left 3x3 block is [a] and whose
    other entries are those of the identity; when the shape of [a] is
    neither (3, 3) nor (4, 4), it raises a type error. *)
Theorem C7_transform4x4 (arr : array_like) (a : ndarray) (name : string) :
  cast_to_ndarray arr true false = Ok a ->
  (arr_shape a = [3; 3]%nat ->
   arr_dtype a = DInt \/ arr_dtype a = DFloat ->
   length (arr_data a) = 9%nat ->
   forallb is_finite (arr_data a) = true ->
   exists b,
     validate_transform4x4 (TransformArray arr) name = Ok b
     /\ arr_shape b = [4; 4]%nat
     /\ forall i j : nat, (i < 4)%nat -> (j < 4)%nat ->
        arr_data b !! (4 * i + j)%nat
        = if (i <? 3)%nat && (j <? 3)%nat then arr_data a !! (3 * i + j)%nat
          else Some (Fin (if (i =? j)%nat then 1 else 0)))
  /\ (arr_shape a <> [3; 3]%nat -> arr_shape a <> [4; 4]%nat ->
      is_type_error (validate_transform4x4 (TransformArray arr) name) = true).
Proof.
  intros Hcast. split.
  - intros Hshape Hd Hlen Hfin.
    exists (set_block3 (eye 4) a). split; [|split].
    + unfold validate_transform4x4, validate_array. cbn -[eye set_block3].
      rewrite Hcast. cbn -[eye set_block3].
      assert (Hhas : has_shape a (AnyOf [STuple [3; 3]; STuple [4; 4]]) = true)
        by (unfold has_shape; rewrite Hshape; reflexivity).
      unfold check_type, check_real, check_shape, check_finite.
      rewrite Hhas, Hfin.
      destruct Hd as [Hd | Hd]; rewrite Hd; cbn -[eye set_block3 bool_decide];
        rewrite bool_decide_eq_true_2 by exact Hshape; reflexivity.
    + reflexivity.
    + intros i j Hi Hj. unfold set_block3.
      destruct (arr_data a) as [|x0 [|x1 [|x2 [|x3 [|x4 [|x5 [|x6 [|x7 [|x8 [|? ?]]]]]]]]]];
        try discriminate Hlen.
      destruct i as [|[|[|[|?]]]]; try lia;
        destruct j as [|[|[|[|?]]]]; try lia; reflexivity.
  - intros H3 H4.
    assert (Hhas : has_shape a (AnyOf [STuple [3; 3]; STuple [4; 4]]) = false).
    { unfold has_shape. cbn [shape_alternatives existsb shape_tuple].
      destruct (shape_allowed (arr_shape a) [3; 3]) eqn:E3.
      { apply shape_allowed_33 in E3. contradiction. }
      destruct (shape_allowed (arr_shape a) [4; 4]) eqn:E4.
      { apply shape_allowed_44 in E4. contradiction. }
      reflexivity. }
    unfold validate_transform4x4, validate_array. cbn -[eye set_block3].
    rewrite Hcast. cbn -[eye set_block3].
    unfold check_type, check_real, check_shape. rewrite Hhas.
    destruct (arr_dtype a); reflexivity.
Qed.

Lemma C7_witness :
  (exists b,
     validate_transform4x4
       (TransformArray (ASeq [ints [1; 2; 3]; ints [4; 5; 6]; ints [7; 8; 9]]))
       "Transform" = Ok b
     /\ arr_shape b = [4; 4]%nat
     /\ forall i j : nat, (i < 4)%nat -> (j < 4)%nat ->
        arr_data b !! (4 * i + j)%nat
        = if (i <? 3)%nat && (j <? 3)%nat
          then [Fin 1; Fin 2; Fin 3; Fin 4; Fin 5; Fin 6; Fin 7; Fin 8; Fin 9]
               !! (3 * i + j)%nat
          else Some (Fin (if (i =? j)%nat then 1 else 0)))
  /\ is_type_error
       (validate_transform4x4
          (TransformArray (ASeq [ints [1; 2; 3]; ints [4; 5; 6]])) "Transform")
     = true.
Proof.
  split.
  - apply (C7_transform4x4
             (ASeq [ints [1; 2; 3]; ints [4; 5; 6]; ints [7; 8; 9]])
             (mk_ndarray DInt [3; 3]%nat
                [Fin 1; Fin 2; Fin 3; Fin 4; Fin 5; Fin 6; Fin 7; Fin 8; Fin 9])
             "Transform" eq_refl);
      [reflexivity | left; reflexivity | reflexivity | reflexivity].
  - apply (C7_transform4x4 (ASeq [ints [1; 2; 3]; ints [4; 5; 6]])
             (mk_ndarray DInt [2; 3]%nat
                [Fin 1; Fin 2; Fin 3; Fin 4; Fin 5; Fin 6])
             "Transform" eq_refl); discriminate.
Defined.

(** ** Pinned constraints *)

Lemma rbind_assoc {A B C} (r : result A) (f : A -> result B) (g : B -> result C) :
  rbind (rbind r f) g = rbind r (fun x => rbind (f x) g).
Proof. destruct r; reflexivity. Qed.

Lemma set_default_overridden (kwargs : gmap string kwval) key dflt fname :
  overrides kwargs (key, dflt, fname) ->
  _set_default_kwarg_mandatory kwargs key dflt fname
  = Raise (ValueError (override_message key fname dflt)).
Proof.
  intros (v & Hv & Hne). simpl in Hv, Hne.
  unfold _set_default_kwarg_mandatory. rewrite Hv. simpl. rewrite Hne. reflexivity.
Qed.

Lemma set_default_cases (kwargs : gmap string kwval) key dflt fname :
  py_eqb dflt dflt = true ->
  overrides kwargs (key, dflt, fname)
  \/ _set_default_kwarg_mandatory kwargs key dflt fname
     = Ok (<[key := dflt]> (delete key kwargs)).
Proof.
  intros Hrefl. unfold _set_default_kwarg_mandatory, overrides. simpl.
  destruct (kwargs !! key) as [v|] eqn:Hv; simpl.
  - destruct (py_eqb v dflt) eqn:E; simpl; [right; reflexivity|].
    left. exists v. auto.
  - rewrite Hrefl. right. reflexivity.
Qed.



Lemma setdefault_lookup_ne (kwargs : gmap string kwval) k k' v :
  k <> k' -> setdefault kwargs k v !! k' = kwargs !! k'.
Proof.
  intros Hne. unfold setdefault. destruct (kwargs !! k); [reflexivity|].
  apply lookup_insert_ne. exact Hne.
Qed.

Ltac case_pins :=
  repeat match goal with
         | |- context [rbind (_set_default_kwarg_mandatory ?a ?b ?c ?d) _] =>
             destruct (_set_default_kwarg_mandatory a b c d); simpl
         end;
  try reflexivity.



Lemma pinned_well_formed (w : wrapper) :
  NoDup (map (fun p => fst (fst p)) (pinned w))
  /\ Forall (fun p => py_eqb (snd (fst p)) (snd (fst p)) = true) (pinned w).
Proof.
  destruct w as [[]| |[]|[]|[]|[] []]; simpl; split;
    repeat constructor; try (rewrite ?list_elem_of_In; simpl; intuition discriminate).
Qed.




(** ** Axes *)

Lemma check_axes_returns (A : list (list xq)) (normalize orth : bool)
    (o : option string) (name : string) (frame : ndarray) :
  check_axes A normalize orth o name = Ok frame ->
  frame = of_rows 3 (map (scaled normalize) A).
Proof.
  unfold check_axes.
  destruct (check_finite (of_rows 3 A) name) as [[]|?]; [|discriminate].
  cbn [rbind].
  repeat match goal with
         | |- (if ?b then Raise _ else _) = _ -> _ =>
             destruct b; [discriminate|]
         end.
  destruct normalize; intros [= <-]; unfold scaled; [reflexivity|].
  rewrite map_id. reflexivity.
Qed.





Local Open Scope Q_scope.


Lemma square_nonneg (x : Q) : 0 <= x * x.
Proof.
  destruct (Qlt_le_dec x 0) as [Hx | Hx].
  - assert (E : x * x == (- x) * (- x)) by ring.
    rewrite E. apply Qmult_le_0_compat; lra.
  - apply Qmult_le_0_compat; lra.
Qed.




Lemma normalized_norm (a1 a2 a3 n1 n2 n3 N : Q) :
  0 < N ->
  N * N <= a1 * a1 + a2 * a2 + a3 * a3 ->
  n1 * N == a1 -> n2 * N == a2 -> n3 * N == a3 ->
  1 <= n1 * n1 + n2 * n2 + n3 * n3.
Proof.
  intros HN Hsq H1 H2 H3.
  assert (E : a1 * a1 + a2 * a2 + a3 * a3
              == (n1 * n1 + n2 * n2 + n3 * n3) * (N * N)).
  { rewrite <- H1, <- H2, <- H3. ring. }
  rewrite E in Hsq.
  destruct (Qlt_le_dec (n1 * n1 + n2 * n2 + n3 * n3) 1) as [Hlt | Hle]; [|exact Hle].
  exfalso. assert (0 < N * N) by nra. nra.
Qed.

Lemma squares_zero (a1 a2 a3 : Q) :
  a1 * a1 + a2 * a2 + a3 * a3 <= 0 -> a1 == 0 /\ a2 == 0 /\ a3 == 0.
Proof.
  intros H.
  pose proof (square_nonneg a1). pose proof (square_nonneg a2).
  pose proof (square_nonneg a3).
  assert (Z : forall x, x * x <= 0 -> x == 0).
  { intros x Hx. destruct (Qlt_le_dec x 0); destruct (Qlt_le_dec 0 x); try lra; nra. }
  repeat split; apply Z; lra.
Qed.

(** The model square root is positive on positive values and its
    square does not exceed its argument. *)
Lemma Qsqrt_spec (q : Q) :
  0 < q -> 0 < Qsqrt q /\ Qsqrt q * Qsqrt q <= q.
Proof.
  intros Hq. unfold Qsqrt. rewrite Qred_correct.
  destruct q as [n d]. unfold Qlt in Hq. simpl in Hq.
  assert (Hn : (0 < n)%Z) by lia.
  assert (HK : (0 < sqrt_scale)%Z) by reflexivity.
  cbn [Qnum Qden].
  generalize dependent sqrt_scale. intros K HK.
  set (X := (n * Z.pos d * (K * K))%Z).
  assert (HX : (0 < X)%Z) by (unfold X; nia).
  pose proof (Z.sqrt_spec X ltac:(lia)) as [Hlo Hhi].
  assert (Hr : (0 < Z.sqrt X)%Z) by (apply Z.sqrt_pos; exact HX).
  split.
  - unfold Qlt. simpl. lia.
  - unfold Qle, Qmult. simpl.
    rewrite !Pos2Z.inj_mul, !Z2Pos.id by lia.
    unfold X in *. nia.
Qed.

Lemma isclose_Fin (a b : Q) : isclose (Fin a) (Fin b) = true <-> close a b.
Proof.
  unfold isclose, close, xle, xabs, xsub, xadd, xmul, xopp.
  rewrite Qle_bool_iff, !Qred_correct. reflexivity.
Qed.

Lemma allclose_Fin3 (c1 c2 c3 n1 n2 n3 : Q) :
  allclose [Fin c1; Fin c2; Fin c3] [Fin n1; Fin n2; Fin n3] = true
  <-> close c1 n1 /\ close c2 n2 /\ close c3 n3.
Proof.
  unfold allclose. cbn [zip zip_with forallb fst snd].
  rewrite !andb_true_iff, !isclose_Fin. tauto.
Qed.



(** A finite row that is not close to zero is normalised to a finite
    row of norm at least 1. *)
Lemma normalize_Fin (a1 a2 a3 : Q) :
  allclose [Fin a1; Fin a2; Fin a3] (replicate 3 (Fin 0)) = false ->
  exists n1 n2 n3,
    map (fun x => xdiv x (norm [Fin a1; Fin a2; Fin a3]))
        [Fin a1; Fin a2; Fin a3]
    = [Fin n1; Fin n2; Fin n3]
    /\ 1 <= n1 * n1 + n2 * n2 + n3 * n3.
Proof.
  intros Hz.
  set (s := Qred (Qred (Qred (a1 * a1) + Qred (a2 * a2)) + Qred (a3 * a3))).
  assert (Hs : s == a1 * a1 + a2 * a2 + a3 * a3).
  { unfold s. rewrite !Qred_correct. reflexivity. }
  assert (Hpos : 0 < s).
  { destruct (Qlt_le_dec 0 s) as [H | H]; [exact H|]. exfalso.
    rewrite Hs in H. apply squares_zero in H as (Z1 & Z2 & Z3).
    assert (Hc : allclose [Fin a1; Fin a2; Fin a3] (replicate 3 (Fin 0)) = true).
    { apply allclose_Fin3. unfold close, atol, rtol.
      rewrite Z1, Z2, Z3. repeat split; discriminate. }
    congruence. }
  destruct (Qsqrt_spec s Hpos) as [HN Hsq].
  assert (Hnorm : norm [Fin a1; Fin a2; Fin a3] = Fin (Qsqrt s)).
  { unfold norm. change (dot [Fin a1; Fin a2; Fin a3] [Fin a1; Fin a2; Fin a3])
      with (Fin s). unfold xsqrt, Qltb.
    replace (Qle_bool 0 s) with true; [reflexivity|].
    symmetry. apply Qle_bool_iff. lra. }
  rewrite Hnorm.
  assert (Hne : Qeq_bool (Qsqrt s) 0 = false).
  { destruct (Qeq_bool (Qsqrt s) 0) eqn:E; [|reflexivity].
    apply Qeq_bool_eq in E. lra. }
  cbn [map xdiv]. rewrite Hne.
  do 3 eexists. split; [reflexivity|].
  apply (normalized_norm a1 a2 a3 _ _ _ (Qsqrt s) HN).
  - rewrite <- Hs. exact Hsq.
  - rewrite Qred_correct. field. lra.
  - rewrite Qred_correct. field. lra.
  - rewrite Qred_correct. field. lra.
Qed.

Local Close Scope Q_scope.



Lemma finite_row (r : list xq) :
  length r = 3%nat -> forallb is_finite r = true ->
  exists a1 a2 a3, r = [Fin a1; Fin a2; Fin a3].
Proof.
  intros Hlen Hfin.
  destruct r as [|x [|y [|z [|? ?]]]]; try discriminate Hlen.
  destruct x as [a1| | |], y as [a2| | |], z as [a3| | |]; try discriminate Hfin.
  eauto.
Qed.





Lemma cross_length (u v : list xq) :
  length u = 3%nat -> length v = 3%nat -> length (cross u v) = 3%nat.
Proof.
  intros Hu Hv.
  destruct u as [|? [|? [|? [|? ?]]]]; try discriminate Hu.
  destruct v as [|? [|? [|? [|? ?]]]]; try discriminate Hv.
  reflexivity.
Qed.



(** * Further properties *)

(** ** The stages of the general validator *)

Lemma validate_array_stages (arr : array_like) (c : config) :
  validate_array arr c
  = rbind (cast_to_ndarray arr (as_any c) (copy c)) (fun a =>
    rbind (dtype_checks a c) (fun _ =>
    rbind (match must_have_shape c with
           | Some spec => check_shape a spec (name c)
           | None => Ok tt
           end) (fun _ =>
    rbind (reshape_stage c a) (fun a1 =>
    rbind (broadcast_stage c a1) (fun a2 =>
    rbind (length_stage c arr) (fun _ =>
    rbind (value_checks c a2) (fun _ =>
    Ok (process_output c a2)))))))).
Proof.
  unfold validate_array, dtype_checks, reshape_stage, broadcast_stage,
    length_stage, value_checks, process_output.
  destruct (cast_to_ndarray arr (as_any c) (copy c)) as [a|]; [|reflexivity].
  cbn [rbind].
  destruct (check_type a c) as [[]|]; [|reflexivity]. cbn [rbind].
  destruct (match must_have_dtype c with Some _ => _ | None => _ end) as [[]|];
    [|reflexivity]. cbn [rbind].
  destruct (match must_have_shape c with Some _ => _ | None => _ end) as [[]|];
    [|reflexivity]. cbn [rbind].
  destruct (match reshape_to c with Some _ => _ | None => _ end) as [a1|];
    [|reflexivity]. cbn [rbind].
  destruct (match broadcast_to c with Some _ => _ | None => _ end) as [a2|];
    [|reflexivity]. cbn [rbind].
  destruct (when_ _ (check_length _ _ _ _ _ _)) as [[]|]; [|reflexivity].
  cbn [rbind].
  destruct (when_ (must_be_nonnegative c) _) as [[]|]; [|reflexivity]. cbn [rbind].
  destruct (when_ (must_be_finite c) _) as [[]|]; [|reflexivity]. cbn [rbind].
  destruct (when_ (must_be_integer_like c) _) as [[]|]; [|reflexivity]. cbn [rbind].
  destruct (match must_be_in_range c with Some _ => _ | None => _ end) as [[]|];
    [|reflexivity]. cbn [rbind].
  destruct (when_ (sorted_requested _) _) as [[]|]; [|reflexivity]. cbn [rbind].
  destruct (to_tuple c), (to_list c); reflexivity.
Qed.

(** What a successful call went through. *)
Lemma validate_array_ok (arr : array_like) (c : config) (o : output) :
  validate_array arr c = Ok o ->
  exists a a1 a2,
    cast_to_ndarray arr (as_any c) (copy c) = Ok a
    /\ dtype_checks a c = Ok tt
    /\ (forall spec, must_have_shape c = Some spec -> has_shape a spec = true)
    /\ reshape_stage c a = Ok a1
    /\ broadcast_stage c a1 = Ok a2
    /\ length_stage c arr = Ok tt
    /\ value_checks c a2 = Ok tt
    /\ o = process_output c a2.
Proof.
  rewrite validate_array_stages.
  destruct (cast_to_ndarray arr (as_any c) (copy c)) as [a|] eqn:Hcast;
    [|discriminate].
  cbn [rbind].
  destruct (dtype_checks a c) as [[]|] eqn:Hdt; [|discriminate]. cbn [rbind].
  assert (Hshape : match must_have_shape c with
                   | Some spec => check_shape a spec (name c)
                   | None => Ok tt
                   end = Ok tt ->
                   forall spec, must_have_shape c = Some spec ->
                                has_shape a spec = true).
  { intros H spec Hspec. rewrite Hspec in H. unfold check_shape in H.
    destruct (has_shape a spec); [reflexivity | discriminate]. }
  destruct (match must_have_shape c with Some _ => _ | None => _ end)
    as [[]|]; [|discriminate]. cbn [rbind].
  destruct (reshape_stage c a) as [a1|] eqn:Hre; [|discriminate]. cbn [rbind].
  destruct (broadcast_stage c a1) as [a2|] eqn:Hbr; [|discriminate]. cbn [rbind].
  destruct (length_stage c arr) as [[]|] eqn:Hlen; [|discriminate]. cbn [rbind].
  destruct (value_checks c a2) as [[]|] eqn:Hval; [|discriminate]. cbn [rbind].
  intros [= <-]. exists a, a1, a2. auto 10.
Qed.

(** ** Transforms, continued *)

Lemma type_error_not_value_error {A} (r : result A) :
  is_type_error r = true -> is_value_error r = false.
Proof. destruct r as [?|[?|?]]; simpl; congruence. Qed.

Lemma except_ValueError_never_value_error {A} (r : result A) (msg : string) :
  is_value_error (except_ValueError r (TypeError msg)) = false.
Proof. destruct r as [?|[?|?]]; reflexivity. Qed.

(** X1: Both transform validators turn every value error into a type
    error: a failed call is never a value error. *)
Theorem transform_validators_never_raise_value_error :
  (forall (transform : transform_like) (name : string),
     is_value_error (validate_transform4x4 transform name) = false)
  /\ (forall (transform : transform3x3_like) (name : string),
        is_value_error (validate_transform3x3 transform name) = false).
Proof.
  split.
  - intros [m|m|m|arr] name; try reflexivity.
    apply except_ValueError_never_value_error.
  - intros [m|arr] name; [reflexivity|].
    apply except_ValueError_never_value_error.
Qed.

(** [validate_array] sees its input only through the array it
    converts to, as long as no length option is set. *)
Lemma validate_array_of_cast (arr : array_like) (c : config)
    (a : ndarray) :
  cast_to_ndarray arr (as_any c) (copy c) = Ok a ->
  must_have_length c = None ->
  must_have_min_length c = None ->
  must_have_max_length c = None ->
  validate_array arr c = validate_array (AArr a) c.
Proof.
  intros Hcast H1 H2 H3. rewrite !validate_array_stages.
  rewrite Hcast. cbn [cast_to_ndarray rbind].
  unfold length_stage. rewrite H1, H2, H3. reflexivity.
Qed.


Lemma shape_33_has_shape (a : ndarray) :
  has_shape a (OneShape (STuple [3; 3])) = true <-> arr_shape a = [3; 3]%nat.
Proof.
  unfold has_shape. cbn [shape_alternatives existsb shape_tuple].
  rewrite orb_false_r. apply shape_allowed_33.
Qed.

Lemma real_dtype_check (a : ndarray) (nm : string) :
  arr_dtype a = DInt \/ arr_dtype a = DFloat -> check_real a nm = Ok tt.
Proof. unfold check_real. intros [-> | ->]; reflexivity. Qed.

Lemma transform3x3_real_33 (arr : array_like) (a : ndarray) (nm : string) :
  cast_to_ndarray arr true false = Ok a ->
  arr_shape a = [3; 3]%nat ->
  arr_dtype a = DInt \/ arr_dtype a = DFloat ->
  validate_transform3x3 (Array3x3 arr) nm = Ok a.
Proof.
  intros Hcast Hshape Hd. unfold validate_transform3x3.
  rewrite validate_array_stages. cbn [as_any copy transform3x3_config].
  rewrite Hcast. cbn [rbind].
  unfold dtype_checks, check_type.
  cbn [must_be_real must_have_dtype must_have_shape name transform3x3_config].
  rewrite (real_dtype_check a nm Hd). cbn [rbind].
  unfold check_shape. rewrite (proj2 (shape_33_has_shape a) Hshape).
  reflexivity.
Qed.

(** X2: [validate_transform3x3] returns a real (3, 3) array as it is,
    whatever its values (it does not ask for finite values), and
    raises a type error for an array of any other shape. *)
Theorem transform3x3_array (arr : array_like) (a : ndarray) (nm : string) :
  cast_to_ndarray arr true false = Ok a ->
  (arr_shape a = [3; 3]%nat ->
   arr_dtype a = DInt \/ arr_dtype a = DFloat ->
   validate_transform3x3 (Array3x3 arr) nm = Ok a)
  /\ (arr_shape a <> [3; 3]%nat ->
      is_type_error (validate_transform3x3 (Array3x3 arr) nm) = true).
Proof.
  intros Hcast. unfold validate_transform3x3.
  rewrite validate_array_stages. cbn [as_any copy transform3x3_config].
  rewrite Hcast. cbn [rbind].
  unfold dtype_checks, check_type.
  cbn [must_be_real must_have_dtype must_have_shape name transform3x3_config].
  split.
  - intros Hshape Hd. rewrite (real_dtype_check a nm Hd). cbn [rbind].
    unfold check_shape. rewrite (proj2 (shape_33_has_shape a) Hshape).
    reflexivity.
  - intros Hshape. unfold check_real, check_shape.
    destruct (existsb _ _); [|reflexivity]. cbn [rbind].
    destruct (has_shape a _) eqn:E; [|reflexivity].
    apply shape_33_has_shape in E. contradiction.
Qed.

Lemma transform3x3_array_witness :
  validate_transform3x3
    (Array3x3 (ASeq [ints [1; 2; 3]; ints [4; 5; 6]; ints [7; 8; 9]])) "Transform"
  = Ok (mk_ndarray DInt [3; 3]%nat
          [Fin 1; Fin 2; Fin 3; Fin 4; Fin 5; Fin 6; Fin 7; Fin 8; Fin 9])
  /\ is_type_error
       (validate_transform3x3 (Array3x3 (AArr (eye 4))) "Transform") = true.
Proof.
  split.
  - apply (transform3x3_array
             (ASeq [ints [1; 2; 3]; ints [4; 5; 6]; ints [7; 8; 9]])
             (mk_ndarray DInt [3; 3]%nat
                [Fin 1; Fin 2; Fin 3; Fin 4; Fin 5; Fin 6; Fin 7; Fin 8; Fin 9])
             "Transform" eq_refl); [reflexivity | left; reflexivity].
  - apply (transform3x3_array (AArr (eye 4)) (eye 4) "Transform" eq_refl).
    discriminate.
Defined.


(** X3: The 4x4 validator asks for finite values, the 3x3 validator does
    not: a real (3, 3) array with an infinite or nan entry is returned
    by [validate_transform3x3] and refused, with a type error, by
    [validate_transform4x4]. *)
Theorem transform_finiteness_differs (arr : array_like) (a : ndarray)
    (nm : string) :
  cast_to_ndarray arr true false = Ok a ->
  arr_shape a = [3; 3]%nat ->
  arr_dtype a = DInt \/ arr_dtype a = DFloat ->
  forallb is_finite (arr_data a) = false ->
  validate_transform3x3 (Array3x3 arr) nm = Ok a
  /\ is_type_error (validate_transform4x4 (TransformArray arr) nm) = true.
Proof.
  intros Hcast Hshape Hd Hfin. split.
  - apply (transform3x3_real_33 arr a nm Hcast); assumption.
  - unfold validate_transform4x4. rewrite validate_array_stages.
    cbn [as_any copy transform_config]. rewrite Hcast. cbn [rbind].
    unfold dtype_checks, check_type.
    cbn [must_be_real must_have_dtype must_have_shape transform_config].
    rewrite (real_dtype_check a _ Hd). cbn [rbind].
    unfold check_shape.
    replace (has_shape a (AnyOf [STuple [3; 3]; STuple [4; 4]])) with true
      by (unfold has_shape; rewrite Hshape; reflexivity).
    cbn [rbind]. unfold reshape_stage, broadcast_stage, length_stage, value_checks.
    cbn [reshape_to broadcast_to must_have_length must_have_min_length
         must_have_max_length must_be_nonnegative must_be_finite
         transform_config is_set orb when_ rbind].
    unfold check_finite. rewrite Hfin. reflexivity.
Qed.

Lemma transform_finiteness_differs_witness :
  validate_transform3x3 (Array3x3 (AArr nan_matrix)) "Transform" = Ok nan_matrix
  /\ is_type_error
       (validate_transform4x4 (TransformArray (AArr nan_matrix)) "Transform")
     = true.
Proof.
  apply (transform_finiteness_differs (AArr nan_matrix) nan_matrix "Transform");
    [reflexivity | reflexivity | right; reflexivity | reflexivity].
Defined.


Lemma finite_default (l : list xq) (k : nat) (q : Q) :
  forallb is_finite l = true -> is_finite (default (Fin q) (l !! k)) = true.
Proof.
  intros H. destruct (l !! k) as [x|] eqn:E; [|reflexivity].
  simpl. rewrite forallb_forall in H. apply H.
  apply list_elem_of_In. eapply list_elem_of_lookup_2. exact E.
Qed.

Lemma set_block3_finite (a : ndarray) :
  forallb is_finite (arr_data a) = true ->
  forallb is_finite (arr_data (set_block3 (eye 4) a)) = true.
Proof.
  intros H. unfold set_block3, eye.
  cbn [arr_data flat_map seq map app imap Nat.eqb Nat.div Nat.modulo
       Nat.ltb Nat.leb andb forallb].
  cbn -[is_finite lookup].
  rewrite !(finite_default _ _ _ H). reflexivity.
Qed.

(** X4: What [validate_transform4x4] makes of an array, it accepts and
    returns unchanged when validated again. *)
Theorem transform4x4_idempotent (arr : array_like) (b : ndarray)
    (nm nm' : string) :
  validate_transform4x4 (TransformArray arr) nm = Ok b ->
  validate_transform4x4 (TransformArray (AArr b)) nm' = Ok b.
Proof.
  unfold validate_transform4x4 at 1.
  destruct (validate_array arr (transform_config nm)) as [o|e] eqn:Hval;
    [|destruct e; discriminate].
  apply validate_array_ok in Hval
    as (a & a1 & a2 & Hcast & Hdt & Hshape & Hre & Hbr & _ & Hval & ->).
  unfold reshape_stage in Hre. unfold broadcast_stage in Hbr.
  cbn [reshape_to broadcast_to transform_config] in Hre, Hbr.
  injection Hre as <-. injection Hbr as <-.
  unfold value_checks in Hval.
  cbn [must_be_nonnegative must_be_finite must_be_integer_like must_be_in_range
       must_be_sorted sorted_requested transform_config when_ rbind] in Hval.
  unfold check_finite in Hval.
  destruct (forallb is_finite (arr_data a)) eqn:Hfin; [|discriminate]. clear Hval.
  unfold dtype_checks, check_type in Hdt.
  cbn [must_be_real must_have_dtype transform_config] in Hdt.
  assert (Hreal : arr_dtype a = DInt \/ arr_dtype a = DFloat).
  { unfold check_real in Hdt. destruct (arr_dtype a); auto; discriminate. }
  specialize (Hshape _ eq_refl).
  assert (Hcases : arr_shape a = [3; 3]%nat \/ arr_shape a = [4; 4]%nat).
  { unfold has_shape in Hshape. cbn [shape_alternatives existsb shape_tuple] in Hshape.
    apply orb_true_iff in Hshape as [H | H]; [left; apply shape_allowed_33; exact H|].
    apply orb_true_iff in H as [H | H]; [right; apply shape_allowed_44; exact H|].
    discriminate. }
  unfold process_output. cbn [dtype_out to_tuple to_list transform_config rbind expect_array].
  assert (Hagain : forall r : ndarray,
            arr_dtype r = DInt \/ arr_dtype r = DFloat ->
            arr_shape r = [4; 4]%nat ->
            forallb is_finite (arr_data r) = true ->
            validate_transform4x4 (TransformArray (AArr r)) nm' = Ok r).
  { intros r Hd Hs Hf. unfold validate_transform4x4.
    rewrite validate_array_stages. cbn [cast_to_ndarray rbind].
    unfold dtype_checks, check_type.
    cbn [must_be_real must_have_dtype must_have_shape transform_config].
    rewrite (real_dtype_check r _ Hd). cbn [rbind]. unfold check_shape.
    replace (has_shape r (AnyOf [STuple [3; 3]; STuple [4; 4]])) with true
      by (unfold has_shape; rewrite Hs; reflexivity).
    cbn [rbind]. unfold reshape_stage, broadcast_stage, length_stage, value_checks.
    cbn [reshape_to broadcast_to must_have_length must_have_min_length
         must_have_max_length must_be_nonnegative must_be_finite
         must_be_integer_like must_be_in_range must_be_sorted sorted_requested
         transform_config is_set orb when_ rbind].
    unfold check_finite. rewrite Hf. cbn [rbind]. unfold process_output.
    cbn [dtype_out to_tuple to_list transform_config rbind expect_array except_ValueError].
    rewrite bool_decide_eq_false_2; [reflexivity|]. rewrite Hs. discriminate. }
  destruct Hcases as [H3 | H4].
  - rewrite bool_decide_eq_true_2 by exact H3. cbn [except_ValueError].
    intros [= <-]. apply Hagain.
    + right. reflexivity.
    + reflexivity.
    + apply set_block3_finite. exact Hfin.
  - rewrite bool_decide_eq_false_2 by (rewrite H4; discriminate).
    cbn [except_ValueError]. intros [= <-]. apply Hagain; assumption.
Qed.

Lemma transform4x4_idempotent_witness :
  validate_transform4x4
    (TransformArray
       (AArr (set_block3 (eye 4)
                (mk_ndarray DInt [3; 3]%nat
                   [Fin 1; Fin 2; Fin 3; Fin 4; Fin 5; Fin 6; Fin 7; Fin 8; Fin 9]))))
    "Again"
  = Ok (set_block3 (eye 4)
          (mk_ndarray DInt [3; 3]%nat
             [Fin 1; Fin 2; Fin 3; Fin 4; Fin 5; Fin 6; Fin 7; Fin 8; Fin 9])).
Proof.
  apply (transform4x4_idempotent
           (ASeq [ints [1; 2; 3]; ints [4; 5; 6]; ints [7; 8; 9]]) _
           "Transform" "Again").
  reflexivity.
Defined.


(** X5: Validating as 3x3 first and as 4x4 afterwards gives what the 4x4
    validator gives directly. *)
Theorem transform4x4_after_3x3 (arr : array_like) (r : ndarray) (nm : string) :
  validate_transform3x3 (Array3x3 arr) nm = Ok r ->
  validate_transform4x4 (TransformArray (AArr r)) nm
  = validate_transform4x4 (TransformArray arr) nm.
Proof.
  unfold validate_transform3x3.
  destruct (validate_array arr (transform3x3_config nm)) as [o|e] eqn:Hval;
    [|destruct e; discriminate].
  apply validate_array_ok in Hval
    as (a & a1 & a2 & Hcast & _ & _ & Hre & Hbr & _ & _ & ->).
  unfold reshape_stage in Hre. unfold broadcast_stage in Hbr.
  cbn [reshape_to broadcast_to transform3x3_config] in Hre, Hbr.
  injection Hre as <-. injection Hbr as <-.
  unfold process_output.
  cbn [dtype_out to_tuple to_list transform3x3_config rbind expect_array
       except_ValueError].
  intros [= <-]. unfold validate_transform4x4.
  rewrite (validate_array_of_cast arr (transform_config nm) a);
    [reflexivity | exact Hcast | reflexivity..].
Qed.

Lemma transform4x4_after_3x3_witness :
  validate_transform4x4
    (TransformArray
       (AArr (mk_ndarray DInt [3; 3]%nat
                [Fin 1; Fin 2; Fin 3; Fin 4; Fin 5; Fin 6; Fin 7; Fin 8; Fin 9])))
    "Transform"
  = validate_transform4x4
      (TransformArray (ASeq [ints [1; 2; 3]; ints [4; 5; 6]; ints [7; 8; 9]]))
      "Transform".
Proof.
  apply (transform4x4_after_3x3
           (ASeq [ints [1; 2; 3]; ints [4; 5; 6]; ints [7; 8; 9]])).
  reflexivity.
Defined.


(** ** The wrappers, step by step *)

(** Every wrapper is: its preliminary test, its defaults, its pinned
    constraints one after the other, and the general validator. *)
Lemma wrapper_steps (w : wrapper) (arr : array_like) (kwargs : gmap string kwval) :
  call_wrapper w arr kwargs
  = rbind (pre_check w kwargs) (fun _ =>
    rbind (pin_all (prepare w kwargs) (pinned w)) (finish_call w arr)).
Proof.
  destruct w as [reshape| |reshape|reshape|reshape|reshape broadcast].
  - destruct reshape; simpl; unfold validate_number; simpl; case_pins.
  - simpl; unfold validate_data_range; simpl; case_pins.
  - destruct reshape; simpl; unfold validate_arrayNx3; simpl; case_pins.
  - destruct reshape; simpl; unfold validate_arrayN; simpl; case_pins.
  - cbn [call_wrapper pre_check prepare]. unfold validate_arrayN_uintlike.
    match goal with |- rbind ?x _ = rbind ?y _ => change y with x; destruct x as [[]|] end;
      [|reflexivity].
    cbn [rbind].
    destruct reshape; simpl; unfold validate_arrayN; simpl; case_pins.
  - destruct reshape, broadcast; simpl; unfold validate_array3; simpl; case_pins.
Qed.

Lemma set_default_ok (kwargs kwargs' : gmap string kwval) key dflt fname :
  _set_default_kwarg_mandatory kwargs key dflt fname = Ok kwargs' ->
  kwargs' = <[key := dflt]> (delete key kwargs).
Proof.
  unfold _set_default_kwarg_mandatory.
  destruct (negb _); [discriminate|]. intros [= <-]. reflexivity.
Qed.

(** After the pinned constraints are set, each pinned keyword holds
    its pinned value and every other keyword is as the caller gave it. *)
Lemma pin_all_ok (pins : list (string * kwval * string)) :
  forall kwargs kwargs' : gmap string kwval,
  NoDup (map (fun p => fst (fst p)) pins) ->
  pin_all kwargs pins = Ok kwargs' ->
  (forall p, In p pins -> kwargs' !! fst (fst p) = Some (snd (fst p)))
  /\ (forall k, ~ In k (map (fun p => fst (fst p)) pins) ->
      kwargs' !! k = kwargs !! k).
Proof.
  induction pins as [|[[key dflt] fname] rest IH]; intros kwargs kwargs' Hnd Hok.
  - injection Hok as <-. split; [intros p []|reflexivity].
  - apply NoDup_cons in Hnd as [Hfresh Hnd]. cbn [pin_all] in Hok.
    destruct (_set_default_kwarg_mandatory kwargs key dflt fname) as [kw1|] eqn:E;
      [|discriminate].
    cbn [rbind] in Hok. apply set_default_ok in E. subst kw1.
    destruct (IH _ _ Hnd Hok) as [Hpins Hother]. split.
    + intros p [<- | Hp]; [|apply Hpins; exact Hp]. cbn [fst snd].
      rewrite Hother; [apply lookup_insert_eq|].
      intros Hin. apply Hfresh. apply list_elem_of_In. exact Hin.
    + intros k Hk. cbn [map fst In] in Hk.
      rewrite Hother by tauto.
      rewrite lookup_insert_ne, lookup_delete_ne by tauto. reflexivity.
Qed.

(** The pinned constraints are set in the same way, with the same
    outcome, whether or not the caller passes one of them with its
    pinned value. *)
Lemma pin_all_explicit (pins : list (string * kwval * string)) key dflt :
  forall kwargs : gmap string kwval,
  NoDup (map (fun p => fst (fst p)) pins) ->
  Forall (fun p => py_eqb (snd (fst p)) (snd (fst p)) = true) pins ->
  (forall p, In p pins -> fst (fst p) = key -> snd (fst p) = dflt) ->
  In key (map (fun p => fst (fst p)) pins) ->
  (exists v, kwargs !! key = Some v /\ py_eqb v dflt = true) ->
  pin_all kwargs pins = pin_all (delete key kwargs) pins.
Proof.
  induction pins as [|[[k d] f] rest IH]; intros kwargs Hnd Hrefl Hdflt Hin (v & Hv & Heq).
  - destruct Hin.
  - apply NoDup_cons in Hnd as [Hfresh Hnd].
    apply Forall_cons in Hrefl as [Hr Hrefl]. cbn [fst snd] in Hr.
    cbn [pin_all]. destruct (decide (k = key)) as [-> | Hne].
    + assert (d = dflt) as -> by (apply (Hdflt (key, d, f)); [left|]; reflexivity).
      unfold _set_default_kwarg_mandatory.
      rewrite Hv, lookup_delete_eq. simpl. rewrite Heq, Hr. simpl.
      rewrite delete_delete_eq. reflexivity.
    + unfold _set_default_kwarg_mandatory.
      rewrite (lookup_delete_ne kwargs key k) by congruence.
      destruct (negb _); [reflexivity|]. cbn [rbind].
      rewrite (delete_delete kwargs k key).
      rewrite <- (delete_insert_ne (delete k kwargs) key k) by congruence.
      apply IH; auto.
      * intros p Hp. apply Hdflt. right. exact Hp.
      * destruct Hin as [Hin | Hin]; [simpl in Hin; congruence | exact Hin].
      * exists v. rewrite lookup_insert_ne, lookup_delete_ne by congruence. auto.
Qed.

Lemma setdefault_delete_ne (kwargs : gmap string kwval) k key v :
  key <> k ->
  setdefault (delete key kwargs) k v = delete key (setdefault kwargs k v).
Proof.
  intros Hne. unfold setdefault. rewrite lookup_delete_ne by congruence.
  destruct (kwargs !! k); [reflexivity|].
  rewrite delete_insert_ne by congruence. reflexivity.
Qed.

Lemma pinned_key_unique (pins : list (string * kwval * string))
    (p q : string * kwval * string) :
  NoDup (map (fun p => fst (fst p)) pins) ->
  In p pins -> In q pins -> fst (fst p) = fst (fst q) -> p = q.
Proof.
  induction pins as [|r rest IH]; intros Hnd Hp Hq Hk; [destruct Hp|].
  apply NoDup_cons in Hnd as [Hfresh Hnd].
  assert (Hmem : forall x, In x rest -> fst (fst x) ∈ map (fun p => fst (fst p)) rest).
  { intros x Hx. apply list_elem_of_In, in_map_iff. exists x. auto. }
  destruct Hp as [<- | Hp], Hq as [<- | Hq]; auto.
  - exfalso. apply Hfresh. rewrite Hk. apply Hmem. exact Hq.
  - exfalso. apply Hfresh. rewrite <- Hk. apply Hmem. exact Hp.
Qed.

Lemma setdefault_lookup_other (kwargs : gmap string kwval) k k' v :
  k' <> k -> setdefault kwargs k v !! k' = kwargs !! k'.
Proof. intros Hne. apply setdefault_lookup_ne. congruence. Qed.

(** The keywords a wrapper gives a default to are none of those it
    pins. *)
Lemma prepare_keeps_pinned (w : wrapper) (kwargs : gmap string kwval)
    (p : string * kwval * string) :
  In p (pinned w) ->
  prepare w kwargs !! fst (fst p) = kwargs !! fst (fst p)
  /\ prepare w (delete (fst (fst p)) kwargs)
     = delete (fst (fst p)) (prepare w kwargs)
  /\ pre_check w (delete (fst (fst p)) kwargs) = pre_check w kwargs.
Proof.
  intros Hp.
  assert (Hne : match w with
                | W_number _ =>
                    fst (fst p) <> "name" /\ fst (fst p) <> "to_list"
                    /\ fst (fst p) <> "must_be_finite"
                    /\ fst (fst p) <> "must_be_real"
                | W_data_range => fst (fst p) <> "name"
                | W_arrayN_uintlike _ => fst (fst p) <> "dtype_out"
                | _ => True
                end).
  { destruct w as [[]| |[]|[]|[]|[] []]; simpl in Hp;
      intuition (subst; simpl; discriminate). }
  destruct w as [reshape| |reshape|reshape|reshape|reshape broadcast];
    cbn [prepare pre_check]; try (repeat split; reflexivity).
  - destruct Hne as (N1 & N2 & N3 & N4).
    rewrite !setdefault_lookup_other by assumption.
    rewrite !setdefault_delete_ne by assumption. auto.
  - rewrite !setdefault_lookup_other by assumption.
    rewrite !setdefault_delete_ne by assumption. auto.
  - rewrite !setdefault_lookup_other by assumption.
    rewrite !setdefault_delete_ne by assumption.
    repeat split. rewrite lookup_delete_ne by congruence. reflexivity.
Qed.

(** X6: A caller may pass a pinned constraint with the value the wrapper
    pins (equal in Python's sense, so [1] for [True]): the call
    behaves as if the keyword were not there. *)
Theorem pinned_value_may_be_passed (w : wrapper) (arr : array_like)
    (kwargs : gmap string kwval) (key : string) (dflt : kwval) (fname : string)
    (v : kwval) :
  In (key, dflt, fname) (pinned w) ->
  kwargs !! key = Some v ->
  py_eqb v dflt = true ->
  call_wrapper w arr kwargs = call_wrapper w arr (delete key kwargs).
Proof.
  intros Hin Hv Heq. rewrite !wrapper_steps.
  destruct (prepare_keeps_pinned w kwargs _ Hin) as (Hlook & Hprep & Hpre).
  cbn [fst snd] in Hlook, Hprep, Hpre.
  rewrite Hpre, Hprep.
  destruct (pinned_well_formed w) as [Hnd Hrefl].
  rewrite (pin_all_explicit (pinned w) key dflt (prepare w kwargs)); auto.
  - intros p Hp Hk.
    assert (p = (key, dflt, fname)) as ->
      by (apply (pinned_key_unique (pinned w)); auto).
    reflexivity.
  - apply in_map_iff. exists (key, dflt, fname). auto.
  - exists v. rewrite Hlook. auto.
Qed.

Lemma pinned_value_may_be_passed_witness :
  call_wrapper W_data_range (ints [-5; 5]) {[ "must_be_sorted" := KInt 1 ]}
  = call_wrapper W_data_range (ints [-5; 5])
      (delete "must_be_sorted" {[ "must_be_sorted" := KInt 1 ]}).
Proof.
  apply (pinned_value_may_be_passed W_data_range (ints [-5; 5])
           {[ "must_be_sorted" := KInt 1 ]} "must_be_sorted" (KBool true)
           "validate_data_range" (KInt 1)).
  - right. left. reflexivity.
  - reflexivity.
  - reflexivity.
Defined.


(** What the general validator reads off a keyword dictionary. *)
Lemma config_of_kwargs_fields (kwargs : gmap string kwval) (c : config) :
  config_of_kwargs kwargs = Ok c ->
  read_shape_spec kwargs "must_have_shape" = Ok (must_have_shape c)
  /\ read_shape kwargs "reshape_to" = Ok (reshape_to c)
  /\ read_shape kwargs "broadcast_to" = Ok (broadcast_to c)
  /\ read_dtype kwargs "dtype_out" = Ok (dtype_out c)
  /\ read_lengths kwargs "must_have_length" = Ok (must_have_length c)
  /\ read_int kwargs "must_have_min_length" = Ok (must_have_min_length c)
  /\ read_int kwargs "must_have_max_length" = Ok (must_have_max_length c)
  /\ read_range kwargs "must_be_in_range" = Ok (must_be_in_range c)
  /\ must_be_sorted c = read_sorted kwargs "must_be_sorted"
  /\ must_be_nonnegative c = read_flag kwargs "must_be_nonnegative" false
  /\ must_be_finite c = read_flag kwargs "must_be_finite" false
  /\ must_be_real c = read_flag kwargs "must_be_real" true
  /\ must_be_integer_like c = read_flag kwargs "must_be_integer_like" false
  /\ to_list c = read_flag kwargs "to_list" false
  /\ to_tuple c = read_flag kwargs "to_tuple" false
  /\ as_any c = read_flag kwargs "as_any" true
  /\ copy c = read_flag kwargs "copy" false.
Proof.
  unfold config_of_kwargs. destruct (negb _); [discriminate|].
  destruct (read_shape_spec kwargs "must_have_shape"); [|discriminate].
  destruct (read_dtypes kwargs "must_have_dtype"); [|discriminate].
  destruct (read_lengths kwargs "must_have_length"); [|discriminate].
  destruct (read_int kwargs "must_have_min_length"); [|discriminate].
  destruct (read_int kwargs "must_have_max_length"); [|discriminate].
  destruct (read_range kwargs "must_be_in_range"); [|discriminate].
  destruct (read_shape kwargs "reshape_to"); [|discriminate].
  destruct (read_shape kwargs "broadcast_to"); [|discriminate].
  destruct (read_dtype kwargs "dtype_out"); [|discriminate].
  cbn [rbind]. intros [= <-]. cbn. repeat split.
Qed.

Lemma shape_allowed_exact (s : list nat) (t : list Z) :
  Forall (fun d => 0 <= d) t ->
  shape_allowed s t = true -> s = map Z.to_nat t.
Proof.
  unfold shape_allowed. intros Hpos H.
  apply andb_true_iff in H as [Hlen H]. apply Nat.eqb_eq in Hlen.
  revert t Hpos Hlen H. induction s as [|x s IH]; intros [|d t] Hpos Hlen H;
    try discriminate; [reflexivity|].
  apply Forall_cons in Hpos as [Hd Hpos]. cbn in H.
  apply andb_true_iff in H as [Hx H].
  apply orb_true_iff in Hx as [Hx | Hx]; [apply Z.eqb_eq in Hx; lia|].
  apply Z.eqb_eq in Hx. cbn [map]. f_equal; [lia|].
  apply IH; auto.
Qed.

Lemma process_output_array (c : config) (a out : ndarray) :
  process_output c a = OutArr out -> arr_shape out = arr_shape a.
Proof.
  unfold process_output.
  destruct (to_tuple c); [discriminate|]. destruct (to_list c); [discriminate|].
  destruct (dtype_out c); intros [= <-]; reflexivity.
Qed.

(** The shape of the array a finished wrapper call returns, from the
    shape of the array the input converts to. *)
Lemma wrapper_call_ok (w : wrapper) (arr : array_like)
    (kwargs : gmap string kwval) (o : output) :
  call_wrapper w arr kwargs = Ok o ->
  exists kwF,
    pin_all (prepare w kwargs) (pinned w) = Ok kwF
    /\ (forall p, In p (pinned w) -> kwF !! fst (fst p) = Some (snd (fst p)))
    /\ (forall k, ~ In k (map (fun p => fst (fst p)) (pinned w)) ->
        kwF !! k = prepare w kwargs !! k)
    /\ finish_call w arr kwF = Ok o.
Proof.
  rewrite wrapper_steps.
  destruct (pre_check w kwargs) as [[]|]; [|discriminate]. cbn [rbind].
  destruct (pin_all (prepare w kwargs) (pinned w)) as [kwF|] eqn:Hpin;
    [|discriminate].
  cbn [rbind]. intros Hfin. exists kwF.
  destruct (pin_all_ok _ _ _ (proj1 (pinned_well_formed w)) Hpin) as [H1 H2].
  auto.
Qed.

Lemma validate_array_kw_ok (arr : array_like) (kwargs : gmap string kwval)
    (o : output) :
  validate_array_kw arr kwargs = Ok o ->
  exists c, config_of_kwargs kwargs = Ok c /\ validate_array arr c = Ok o.
Proof.
  unfold validate_array_kw.
  destruct (config_of_kwargs kwargs) as [c|]; [|discriminate].
  cbn [rbind]. eauto.
Qed.

Lemma has_shape_cases (a : ndarray) (alts : list shape_like) :
  Forall (fun s => Forall (fun d => 0 <= d) (shape_tuple s)) alts ->
  has_shape a (AnyOf alts) = true ->
  In (arr_shape a) (map (fun s => map Z.to_nat (shape_tuple s)) alts).
Proof.
  unfold has_shape. cbn [shape_alternatives].
  induction alts as [|s alts IH]; intros Hpos H; [discriminate|].
  apply Forall_cons in Hpos as [Hs Hpos]. cbn [existsb] in H.
  apply orb_true_iff in H as [H | H].
  - left. symmetry. apply shape_allowed_exact; assumption.
  - right. apply IH; assumption.
Qed.

Lemma broadcast_to_3 (a a2 : ndarray) :
  arr_shape a = [3%nat] \/ arr_shape a = [1%nat] \/ arr_shape a = [] ->
  (if shape_differs a (STuple [3]) then broadcast_to_ a (STuple [3]) else Ok a)
  = Ok a2 ->
  arr_shape a2 = [3%nat].
Proof.
  unfold shape_differs, shape_Z, broadcast_to_, arr_ndim.
  intros [E | [E | E]]; rewrite E; cbn; intros [= <-]; auto.
Qed.

Ltac use_pin Hpins key dflt fn H :=
  let P := fresh "P" in
  assert (P := Hpins (key, dflt, fn)); cbn [fst snd] in P;
  rewrite P in H by (simpl; auto); clear P.

(** X7: [validate_array3] returns an array of shape (3,), whatever the
    flags and the other keywords, as long as the caller does not ask
    for a reshape or a broadcast of their own where the wrapper leaves
    the keyword free. *)
Theorem array3_returns_shape_3 (arr : array_like) (reshape broadcast : bool)
    (kwargs : gmap string kwval) (out : ndarray) :
  reshape = true \/ kwargs !! "reshape_to" = None ->
  broadcast = true \/ kwargs !! "broadcast_to" = None ->
  validate_array3 arr reshape broadcast kwargs = Ok (OutArr out) ->
  arr_shape out = [3%nat].
Proof.
  intros Hre Hbr Hcall.
  apply (wrapper_call_ok (W_array3 reshape broadcast)) in Hcall
    as (kwF & _ & Hpins & Hother & Hfin).
  cbn [finish_call prepare] in Hfin, Hother.
  apply validate_array_kw_ok in Hfin as (c & Hc & Hval).
  apply config_of_kwargs_fields in Hc as (Fshape & Freshape & Fbroadcast & _).
  apply validate_array_ok in Hval
    as (a & a1 & a2 & _ & _ & Hshape & Hr & Hb & _ & _ & Hout).
  symmetry in Hout. apply process_output_array in Hout. rewrite Hout. clear Hout.
  unfold read_shape_spec in Fshape. unfold read_shape in Freshape, Fbroadcast.
  unfold reshape_stage in Hr. unfold broadcast_stage in Hb.
  assert (Hcases : forall alts,
            Forall (fun s => Forall (fun d => 0 <= d) (shape_tuple s)) alts ->
            kwF !! "must_have_shape" = Some (KShapes alts) ->
            In (arr_shape a) (map (fun s => map Z.to_nat (shape_tuple s)) alts)).
  { intros alts Hpos Hk. rewrite Hk in Fshape. injection Fshape as Fshape.
    apply has_shape_cases; [exact Hpos|]. apply Hshape. symmetry. exact Fshape. }
  clear Fshape Hshape.
  destruct reshape, broadcast;
    match type of Hpins with
    | context [pinned ?w] =>
        let p := eval cbv in (last (pinned w)) in
        match p with
        | Some (_, KShapes ?alts, _) =>
            specialize (Hcases alts);
            assert (Fshape := Hcases ltac:(repeat constructor; simpl; lia)
                                ltac:(apply (Hpins ("must_have_shape", KShapes alts, "validate_array3")); simpl; auto));
            clear Hcases
        end
    end;
    cbn [map shape_tuple Z.to_nat In] in Fshape.
  - use_pin Hpins "reshape_to" (KInt (-1)) "validate_array3" Freshape.
    use_pin Hpins "broadcast_to" (KTuple [3]) "validate_array3" Fbroadcast.
    injection Freshape as Freshape. rewrite <- Freshape in Hr.
    injection Fbroadcast as Fbroadcast. rewrite <- Fbroadcast in Hb.
    unfold reshape, arr_size in Hr. cbn [shape_differs shape_tuple] in Hr.
    rewrite resolve_shape_flat in Hr. cbn [rbind] in Hr. injection Hr as <-.
    apply broadcast_to_3 in Hb; [exact Hb|]. cbn [arr_shape].
    destruct Fshape as [E | [E | [E | [E | [E | []]]]]]; rewrite <- E; auto.
  - use_pin Hpins "reshape_to" (KInt (-1)) "validate_array3" Freshape.
    rewrite Hother in Fbroadcast by (simpl; intuition discriminate).
    destruct Hbr as [? | Hbr]; [discriminate|]. rewrite Hbr in Fbroadcast.
    injection Freshape as Freshape. rewrite <- Freshape in Hr.
    injection Fbroadcast as Fbroadcast. rewrite <- Fbroadcast in Hb.
    unfold reshape, arr_size in Hr. cbn [shape_differs shape_tuple] in Hr.
    rewrite resolve_shape_flat in Hr. cbn [rbind] in Hr. injection Hr as <-.
    injection Hb as <-. cbn [arr_shape].
    destruct Fshape as [E | [E | [E | []]]]; rewrite <- E; reflexivity.
  - rewrite Hother in Freshape by (simpl; intuition discriminate).
    destruct Hre as [? | Hre]; [discriminate|]. rewrite Hre in Freshape.
    use_pin Hpins "broadcast_to" (KTuple [3]) "validate_array3" Fbroadcast.
    injection Freshape as Freshape. rewrite <- Freshape in Hr.
    injection Fbroadcast as Fbroadcast. rewrite <- Fbroadcast in Hb.
    injection Hr as <-.
    apply broadcast_to_3 in Hb; [exact Hb|].
    destruct Fshape as [E | [E | [E | []]]]; rewrite <- E; auto.
  - rewrite Hother in Freshape by (simpl; intuition discriminate).
    rewrite Hother in Fbroadcast by (simpl; intuition discriminate).
    destruct Hre as [? | Hre]; [discriminate|]. rewrite Hre in Freshape.
    destruct Hbr as [? | Hbr]; [discriminate|]. rewrite Hbr in Fbroadcast.
    injection Freshape as Freshape. rewrite <- Freshape in Hr.
    injection Fbroadcast as Fbroadcast. rewrite <- Fbroadcast in Hb.
    injection Hr as <-. injection Hb as <-.
    destruct Fshape as [E | []]. rewrite <- E. reflexivity.
Qed.

Lemma array3_returns_shape_3_witness :
  arr_shape (mk_ndarray DInt [3%nat] [Fin 1; Fin 2; Fin 3]) = [3%nat].
Proof.
  apply (array3_returns_shape_3 (ASeq [ints [1; 2; 3]]) true false
           {[ "must_be_nonnegative" := KBool true ]}).
  - left. reflexivity.
  - right. reflexivity.
  - reflexivity.
Defined.


Lemma shape_allowed_any_length (s : list nat) :
  shape_allowed s [-1] = true -> exists n, s = [n].
Proof.
  unfold shape_allowed. destruct s as [|n [|? ?]]; try discriminate. eauto.
Qed.

Lemma shape_allowed_any_by_3 (s : list nat) :
  shape_allowed s [-1; 3] = true -> exists n, s = [n; 3%nat].
Proof.
  unfold shape_allowed. destruct s as [|n [|m [|? ?]]]; try discriminate.
  cbn. intros H. apply andb_true_iff in H as [H _].
  apply Z.eqb_eq in H. exists n. f_equal. f_equal. lia.
Qed.

Lemma resolve_shape_by_3 (n : nat) (shp : list nat) :
  resolve_shape n [-1; 3] = Ok shp -> exists m, shp = [m; 3%nat].
Proof.
  unfold resolve_shape. cbn -[Z.modulo Z.div Z.of_nat].
  destruct (negb _); [discriminate|]. intros [= <-]. eauto.
Qed.

(** The stages of a wrapper call that ends in an array, with the
    constraints the general validator was given. *)
Lemma wrapper_array_ok (w : wrapper) (arr : array_like)
    (kwargs : gmap string kwval) (out : ndarray) :
  (forall kw, finish_call w arr kw = validate_array_kw arr kw) ->
  call_wrapper w arr kwargs = Ok (OutArr out) ->
  exists kwF c a a1 a2,
    (forall p, In p (pinned w) -> kwF !! fst (fst p) = Some (snd (fst p)))
    /\ (forall k, ~ In k (map (fun p => fst (fst p)) (pinned w)) ->
        kwF !! k = prepare w kwargs !! k)
    /\ config_of_kwargs kwF = Ok c
    /\ (forall spec, must_have_shape c = Some spec -> has_shape a spec = true)
    /\ reshape_stage c a = Ok a1
    /\ broadcast_stage c a1 = Ok a2
    /\ value_checks c a2 = Ok tt
    /\ process_output c a2 = OutArr out.
Proof.
  intros Hfinish Hcall.
  apply wrapper_call_ok in Hcall as (kwF & _ & Hpins & Hother & Hfin).
  rewrite Hfinish in Hfin.
  apply validate_array_kw_ok in Hfin as (c & Hc & Hval).
  apply validate_array_ok in Hval
    as (a & a1 & a2 & _ & _ & Hshape & Hr & Hb & _ & Hv & Hout).
  exists kwF, c, a, a1, a2. auto 10.
Qed.

(** X8: [validate_arrayN] returns a one-dimensional array, under the same
    proviso as [validate_array3]. *)
Theorem arrayN_returns_1d (arr : array_like) (reshape : bool)
    (kwargs : gmap string kwval) (out : ndarray) :
  reshape = true \/ kwargs !! "reshape_to" = None ->
  kwargs !! "broadcast_to" = None ->
  validate_arrayN arr reshape kwargs = Ok (OutArr out) ->
  arr_ndim out = 1%nat.
Proof.
  intros Hre Hbr Hcall.
  apply (wrapper_array_ok (W_arrayN reshape)) in Hcall
    as (kwF & c & a & a1 & a2 & Hpins & Hother & Hc & Hshape & Hr & Hb & _ & Hout);
    [|reflexivity].
  cbn [prepare] in Hother.
  apply config_of_kwargs_fields in Hc as (Fshape & Freshape & Fbroadcast & _).
  apply process_output_array in Hout. unfold arr_ndim. rewrite Hout. clear Hout.
  unfold read_shape_spec in Fshape. unfold read_shape in Freshape, Fbroadcast.
  unfold reshape_stage in Hr. unfold broadcast_stage in Hb.
  rewrite Hother, Hbr in Fbroadcast
    by (destruct reshape; simpl; intuition discriminate).
  injection Fbroadcast as Fbroadcast. rewrite <- Fbroadcast in Hb.
  injection Hb as <-.
  destruct reshape.
  - use_pin Hpins "reshape_to" (KInt (-1)) "validate_arrayN" Freshape.
    injection Freshape as Freshape. rewrite <- Freshape in Hr.
    unfold reshape in Hr. cbn [shape_differs shape_tuple] in Hr.
    rewrite resolve_shape_flat in Hr. cbn [rbind] in Hr. injection Hr as <-.
    reflexivity.
  - rewrite Hother in Freshape by (simpl; intuition discriminate).
    destruct Hre as [? | Hre]; [discriminate|]. rewrite Hre in Freshape.
    injection Freshape as Freshape. rewrite <- Freshape in Hr.
    injection Hr as <-.
    use_pin Hpins "must_have_shape" (KInt (-1)) "validate_arrayN" Fshape.
    injection Fshape as Fshape. symmetry in Fshape. apply Hshape in Fshape.
    unfold has_shape in Fshape. cbn [shape_alternatives existsb shape_tuple] in Fshape.
    rewrite orb_false_r in Fshape.
    apply shape_allowed_any_length in Fshape as [n ->]. reflexivity.
Qed.

Lemma arrayN_returns_1d_witness :
  arr_ndim (mk_ndarray DInt [2%nat] [Fin 1; Fin 2]) = 1%nat.
Proof.
  apply (arrayN_returns_1d (ASeq [ints [1; 2]]) true ∅).
  - left. reflexivity.
  - reflexivity.
  - reflexivity.
Defined.


(** X9: [validate_arrayNx3] returns an array of shape (N, 3), under the
    same proviso. *)
Theorem arrayNx3_returns_Nx3 (arr : array_like) (reshape : bool)
    (kwargs : gmap string kwval) (out : ndarray) :
  reshape = true \/ kwargs !! "reshape_to" = None ->
  kwargs !! "broadcast_to" = None ->
  validate_arrayNx3 arr reshape kwargs = Ok (OutArr out) ->
  exists n, arr_shape out = [n; 3%nat].
Proof.
  intros Hre Hbr Hcall.
  apply (wrapper_array_ok (W_arrayNx3 reshape)) in Hcall
    as (kwF & c & a & a1 & a2 & Hpins & Hother & Hc & Hshape & Hr & Hb & _ & Hout);
    [|reflexivity].
  cbn [prepare] in Hother.
  apply config_of_kwargs_fields in Hc as (Fshape & Freshape & Fbroadcast & _).
  apply process_output_array in Hout. rewrite Hout. clear Hout.
  unfold read_shape_spec in Fshape. unfold read_shape in Freshape, Fbroadcast.
  unfold reshape_stage in Hr. unfold broadcast_stage in Hb.
  rewrite Hother, Hbr in Fbroadcast
    by (destruct reshape; simpl; intuition discriminate).
  injection Fbroadcast as Fbroadcast. rewrite <- Fbroadcast in Hb.
  injection Hb as <-.
  destruct reshape.
  - use_pin Hpins "reshape_to" (KTuple [-1; 3]) "validate_arrayNx3" Freshape.
    injection Freshape as Freshape. rewrite <- Freshape in Hr.
    use_pin Hpins "must_have_shape" (KShapes [SInt 3; STuple [-1; 3]])
      "validate_arrayNx3" Fshape.
    injection Fshape as Fshape. symmetry in Fshape. apply Hshape in Fshape.
    destruct (shape_differs a (STuple [-1; 3])) eqn:Hd.
    + unfold reshape in Hr. cbn [shape_tuple] in Hr.
      destruct (resolve_shape (arr_size a) [-1; 3]) as [shp|] eqn:E; [|discriminate].
      cbn [rbind] in Hr. injection Hr as <-.
      apply resolve_shape_by_3 in E. exact E.
    + injection Hr as <-. unfold shape_differs in Hd.
      apply negb_false_iff, bool_decide_eq_true in Hd.
      unfold shape_Z in Hd. destruct (arr_shape a) as [|x ?]; [discriminate|].
      cbn in Hd. injection Hd as Hx _. lia.
  - rewrite Hother in Freshape by (simpl; intuition discriminate).
    destruct Hre as [? | Hre]; [discriminate|]. rewrite Hre in Freshape.
    injection Freshape as Freshape. rewrite <- Freshape in Hr.
    injection Hr as <-.
    use_pin Hpins "must_have_shape" (KTuple [-1; 3]) "validate_arrayNx3" Fshape.
    injection Fshape as Fshape. symmetry in Fshape. apply Hshape in Fshape.
    unfold has_shape in Fshape. cbn [shape_alternatives existsb shape_tuple] in Fshape.
    rewrite orb_false_r in Fshape.
    apply shape_allowed_any_by_3 in Fshape. exact Fshape.
Qed.

Lemma arrayNx3_returns_Nx3_witness :
  exists n, arr_shape (mk_ndarray DInt [1; 3]%nat [Fin 1; Fin 2; Fin 3])
            = [n; 3%nat].
Proof.
  apply (arrayNx3_returns_Nx3 (ints [1; 2; 3]) true ∅).
  - left. reflexivity.
  - reflexivity.
  - reflexivity.
Defined.


(** ** The wrappers with their defaults, continued *)

(** X10: [validate_arrayN_uintlike] refuses a [dtype_out] that is not an
    integer kind with a type error, before it looks at anything else:
    the input and the other keywords play no role. *)
Theorem uintlike_rejects_other_dtype_out (arr : array_like) (reshape : bool)
    (kwargs : gmap string kwval) (t : dtype_like) :
  kwargs !! "dtype_out" = Some (KDtype t) ->
  np_dtype t <> DInt ->
  is_type_error (validate_arrayN_uintlike arr reshape kwargs) = true.
Proof.
  intros Hk Hne. unfold validate_arrayN_uintlike, setdefault. rewrite Hk, Hk.
  cbn [default from_option id is_int_kw].
  destruct t as [| | | | | | |d]; try (exfalso; apply Hne; reflexivity);
    try reflexivity.
  destruct d; try reflexivity. exfalso. apply Hne. reflexivity.
Qed.

Lemma uintlike_rejects_other_dtype_out_witness :
  is_type_error
    (validate_arrayN_uintlike (ints [1; 2; 3]) true
       {[ "dtype_out" := KDtype py_float ]}) = true.
Proof.
  apply (uintlike_rejects_other_dtype_out (ints [1; 2; 3]) true
           {[ "dtype_out" := KDtype py_float ]} py_float).
  - reflexivity.
  - discriminate.
Defined.


Lemma wrapper_pre_check_ok (w : wrapper) (arr : array_like)
    (kwargs : gmap string kwval) (o : output) :
  call_wrapper w arr kwargs = Ok o -> pre_check w kwargs = Ok tt.
Proof.
  rewrite wrapper_steps. destruct (pre_check w kwargs) as [[]|]; [reflexivity|].
  discriminate.
Qed.

Lemma uintlike_dtype_out_integer (reshape : bool) (kwargs : gmap string kwval) :
  pre_check (W_arrayN_uintlike reshape) kwargs = Ok tt ->
  exists t, prepare (W_arrayN_uintlike reshape) kwargs !! "dtype_out"
            = Some (KDtype t)
            /\ np_dtype t = DInt.
Proof.
  cbn [pre_check prepare]. unfold setdefault.
  destruct (kwargs !! "dtype_out") as [v|] eqn:E.
  - rewrite E. cbn [default from_option id].
    destruct v as [| | | | | |t| | |]; try discriminate.
    cbn [is_int_kw check_subdtype_kw]. intros H. exists t. split; [reflexivity|].
    destruct t as [| | | | | | |d]; try discriminate; try reflexivity.
    destruct d; try discriminate. reflexivity.
  - rewrite lookup_insert_eq. intros _. exists py_int. split; reflexivity.
Qed.

(** X11: An array returned by [validate_arrayN_uintlike] has an integer
    element kind, whatever the keywords, and one dimension when the
    caller asks for no reshape or broadcast of their own. *)
Theorem uintlike_returns_integer_vector (arr : array_like) (reshape : bool)
    (kwargs : gmap string kwval) (out : ndarray) :
  validate_arrayN_uintlike arr reshape kwargs = Ok (OutArr out) ->
  arr_dtype out = DInt
  /\ (reshape = true \/ kwargs !! "reshape_to" = None ->
      kwargs !! "broadcast_to" = None ->
      arr_ndim out = 1%nat).
Proof.
  intros Hcall.
  pose proof (wrapper_pre_check_ok (W_arrayN_uintlike reshape) _ _ _ Hcall) as Hpre.
  apply uintlike_dtype_out_integer in Hpre as (t & Ht & Hint).
  apply (wrapper_array_ok (W_arrayN_uintlike reshape)) in Hcall
    as (kwF & c & a & a1 & a2 & Hpins & Hother & Hc & Hshape & Hr & Hb & _ & Hout);
    [|reflexivity].
  apply config_of_kwargs_fields in Hc
    as (Fshape & Freshape & Fbroadcast & Fdtype & _ & _ & _ & _ & _ & _ & _ & _ & _
        & Flist & Ftuple & _).
  split.
  - unfold read_dtype in Fdtype.
    rewrite Hother, Ht in Fdtype by (destruct reshape; simpl; intuition discriminate).
    injection Fdtype as Fdtype. unfold process_output in Hout.
    rewrite <- Fdtype in Hout.
    destruct (to_tuple c); [discriminate|]. destruct (to_list c); [discriminate|].
    injection Hout as <-. cbn [astype arr_dtype]. exact Hint.
  - intros Hre Hbr. apply process_output_array in Hout.
    unfold arr_ndim. rewrite Hout. clear Hout.
    unfold read_shape_spec in Fshape. unfold read_shape in Freshape, Fbroadcast.
    unfold reshape_stage in Hr. unfold broadcast_stage in Hb.
    assert (Hfree : forall k, k <> "dtype_out" ->
              prepare (W_arrayN_uintlike reshape) kwargs !! k = kwargs !! k).
    { intros k Hk. cbn [prepare]. apply setdefault_lookup_other. exact Hk. }
    rewrite Hother, Hfree, Hbr in Fbroadcast
      by (try discriminate; destruct reshape; simpl; intuition discriminate).
    injection Fbroadcast as Fbroadcast. rewrite <- Fbroadcast in Hb.
    injection Hb as <-.
    destruct reshape.
    + use_pin Hpins "reshape_to" (KInt (-1)) "validate_arrayN" Freshape.
      injection Freshape as Freshape. rewrite <- Freshape in Hr.
      unfold reshape in Hr. cbn [shape_differs shape_tuple] in Hr.
      rewrite resolve_shape_flat in Hr. cbn [rbind] in Hr. injection Hr as <-.
      reflexivity.
    + rewrite Hother, Hfree in Freshape
        by (try discriminate; simpl; intuition discriminate).
      destruct Hre as [? | Hre]; [discriminate|]. rewrite Hre in Freshape.
      injection Freshape as Freshape. rewrite <- Freshape in Hr.
      injection Hr as <-.
      use_pin Hpins "must_have_shape" (KInt (-1)) "validate_arrayN" Fshape.
      injection Fshape as Fshape. symmetry in Fshape. apply Hshape in Fshape.
      unfold has_shape in Fshape.
      cbn [shape_alternatives existsb shape_tuple] in Fshape.
      rewrite orb_false_r in Fshape.
      apply shape_allowed_any_length in Fshape as [n ->]. reflexivity.
Qed.

Lemma uintlike_returns_integer_vector_witness :
  arr_dtype (mk_ndarray DInt [2%nat] [Fin 1; Fin 2]) = DInt
  /\ (true = true \/ (∅ : gmap string kwval) !! "reshape_to" = None ->
      (∅ : gmap string kwval) !! "broadcast_to" = None ->
      arr_ndim (mk_ndarray DInt [2%nat] [Fin 1; Fin 2]) = 1%nat).
Proof.
  apply (uintlike_returns_integer_vector (ASeq [floats [1; 2]%Q]) true ∅).
  reflexivity.
Defined.





Lemma number_default (num : array_like) (reshape : bool) :
  validate_number num reshape ∅ = validate_array num (number_config reshape).
Proof. destruct reshape; reflexivity. Qed.

Lemma real_kind_check (a : ndarray) (nm : string) :
  check_real a nm = Ok tt <-> real_kind (arr_dtype a) = true.
Proof.
  unfold check_real, real_kind. destruct (arr_dtype a); cbn; split;
    intros; try reflexivity; discriminate.
Qed.

Lemma singleton_data (a : ndarray) :
  well_formed a -> arr_shape a = [] \/ arr_shape a = [1%nat] ->
  exists x, arr_data a = [x].
Proof.
  unfold well_formed, arr_size. intros Hwf Hs.
  assert (Hlen : length (arr_data a) = 1%nat)
    by (destruct Hs as [E | E]; rewrite E in Hwf; exact Hwf).
  destruct (arr_data a) as [|x [|? ?]]; try discriminate. eauto.
Qed.

(** X13: [validate_number], called with the number alone, accepts exactly
    the finite real values that are 0-dimensional or, with [reshape]
    on, hold one element in one dimension, and returns the value as a
    plain Python number. *)
Theorem number_accepts_single_finite_values (num : array_like) (reshape : bool)
    (a : ndarray) (o : output) :
  cast_to_ndarray num true false = Ok a ->
  well_formed a ->
  validate_number num reshape ∅ = Ok o
  <-> real_kind (arr_dtype a) = true
      /\ (arr_shape a = [] \/ (reshape = true /\ arr_shape a = [1%nat]))
      /\ exists x, arr_data a = [x] /\ is_finite x = true
                   /\ o = OutObj (ONum (item (arr_dtype a) x)).
Proof.
  intros Hcast Hwf. rewrite number_default, validate_array_stages.
  replace (as_any (number_config reshape)) with true by (destruct reshape; reflexivity).
  replace (copy (number_config reshape)) with false by (destruct reshape; reflexivity).
  rewrite Hcast. cbn [rbind]. unfold dtype_checks, check_type.
  replace (must_be_real (number_config reshape)) with true
    by (destruct reshape; reflexivity).
  replace (must_have_dtype (number_config reshape)) with (@None (list dtype_like))
    by (destruct reshape; reflexivity).
  destruct (real_kind (arr_dtype a)) eqn:Hreal.
  2:{ destruct (check_real a _) as [[]|] eqn:E.
      - apply real_kind_check in E. congruence.
      - cbn [rbind]. split; [discriminate | intros (? & _); discriminate]. }
  rewrite (proj2 (real_kind_check a _) Hreal). cbn [rbind].
  unfold check_shape, has_shape, reshape_stage, broadcast_stage, length_stage,
    value_checks, process_output.
  destruct reshape; cbn [number_config must_have_shape reshape_to broadcast_to
    must_have_length must_have_min_length must_have_max_length is_set orb when_
    must_be_nonnegative must_be_finite must_be_integer_like must_be_in_range
    must_be_sorted sorted_requested dtype_out to_tuple to_list name
    shape_alternatives existsb shape_tuple rbind].
  - (* reshape on *)
    destruct (arr_shape a) as [|n [|n0 l]] eqn:Hs.
    + destruct (singleton_data a Hwf (or_introl Hs)) as [x Hx].
      change (shape_allowed [] [] || (shape_allowed [] [1] || false)) with true.
      cbn [rbind]. unfold shape_differs, shape_Z. rewrite Hs.
      change (negb (bool_decide (map Z.of_nat [] = []))) with false.
      cbn iota. cbn [rbind]. unfold check_finite, tolist. rewrite Hs, Hx.
      cbn [forallb andb nest hd].
      destruct (is_finite x) eqn:Hfin; cbn [rbind].
      * split.
        -- intros [= <-]. repeat split; auto. exists x. auto.
        -- intros (_ & _ & y & [= <-] & _ & ->). reflexivity.
      * split; [discriminate|]. intros (_ & _ & y & [= <-] & ? & _). congruence.
    + destruct (decide (n = 1%nat)) as [-> | Hn].
      * destruct (singleton_data a Hwf (or_intror Hs)) as [x Hx].
        change (shape_allowed [1%nat] [] || (shape_allowed [1%nat] [1] || false))
          with true.
        cbn [rbind]. unfold shape_differs, shape_Z, reshape, arr_size. rewrite Hs.
        change (negb (bool_decide (map Z.of_nat [1%nat] = []))) with true.
        cbn iota. change (resolve_shape (nprod [1%nat]) (shape_tuple (STuple [])))
          with (Ok (@nil nat)).
        cbn [rbind]. unfold check_finite, tolist. cbn [arr_data arr_shape arr_dtype].
        rewrite Hx. cbn [forallb andb nest hd].
        destruct (is_finite x) eqn:Hfin; cbn [rbind].
        -- split.
           ++ intros [= <-]. repeat split; auto. exists x. auto.
           ++ intros (_ & _ & y & [= <-] & _ & ->). reflexivity.
        -- split; [discriminate|]. intros (_ & _ & y & [= <-] & ? & _). congruence.
      * replace (shape_allowed [n] [] || (shape_allowed [n] [1] || false))
          with false.
        2:{ unfold shape_allowed. cbn. destruct (Z.of_nat n =? 1) eqn:E; [|reflexivity].
            apply Z.eqb_eq in E. lia. }
        cbn [rbind]. split; [discriminate|].
        intros (_ & [? | [_ ?]] & _); [discriminate | congruence].
    + change (shape_allowed (n :: n0 :: l) [] || (shape_allowed (n :: n0 :: l) [1] || false))
        with false.
      cbn [rbind]. split; [discriminate|].
      intros (_ & [? | [_ ?]] & _); discriminate.
  - (* reshape off *)
    destruct (arr_shape a) as [|n l] eqn:Hs.
    + destruct (singleton_data a Hwf (or_introl Hs)) as [x Hx].
      change (shape_allowed [] [] || false) with true.
      cbn [rbind]. unfold check_finite, tolist. rewrite Hs, Hx.
      cbn [forallb andb nest hd].
      destruct (is_finite x) eqn:Hfin; cbn [rbind].
      * split.
        -- intros [= <-]. repeat split; auto. exists x. auto.
        -- intros (_ & _ & y & [= <-] & _ & ->). reflexivity.
      * split; [discriminate|]. intros (_ & _ & y & [= <-] & ? & _). congruence.
    + change (shape_allowed (n :: l) [] || false) with false.
      cbn [rbind]. split; [discriminate|].
      intros (_ & [? | [? _]] & _); discriminate.
Qed.

Lemma number_accepts_single_finite_values_witness :
  validate_number (floats [42%Q]) true ∅ = Ok (OutObj (ONum (PyFloat (Fin 42)))).
Proof.
  apply (number_accepts_single_finite_values (floats [42%Q]) true
           (mk_ndarray DFloat [1%nat] [Fin 42])
           (OutObj (ONum (PyFloat (Fin 42)))) eq_refl eq_refl).
  split; [reflexivity|]. split; [right; split; reflexivity|].
  exists (Fin 42). repeat split.
Defined.


Lemma shape_allowed_2 (s : list nat) :
  shape_allowed s [2] = true <-> s = [2%nat].
Proof.
  split; [|intros ->; reflexivity].
  intros H. apply (shape_allowed_exact s [2]) in H; [exact H|].
  repeat constructor. lia.
Qed.

(** X14: [validate_data_range], called with the range alone, accepts exactly
    the real arrays of shape (2,) whose first element is not above the
    second (a nan in either place is refused), and returns the two as
    a tuple. *)
Theorem data_range_accepts_ascending_pairs (rng : array_like) (a : ndarray)
    (o : output) :
  cast_to_ndarray rng true false = Ok a ->
  well_formed a ->
  validate_data_range rng ∅ = Ok o
  <-> real_kind (arr_dtype a) = true
      /\ arr_shape a = [2%nat]
      /\ exists x y, arr_data a = [x; y] /\ xle x y = true
                     /\ o = OutObj (OTuple [ONum (item (arr_dtype a) x);
                                            ONum (item (arr_dtype a) y)]).
Proof.
  intros Hcast Hwf. rewrite data_range_default, validate_array_stages.
  cbn [as_any copy data_range_config]. rewrite Hcast. cbn [rbind].
  unfold dtype_checks, check_type.
  cbn [must_be_real must_have_dtype data_range_config].
  destruct (real_kind (arr_dtype a)) eqn:Hreal.
  2:{ destruct (check_real a _) as [[]|] eqn:E.
      - apply real_kind_check in E. congruence.
      - cbn [rbind]. split; [discriminate | intros (? & _); discriminate]. }
  rewrite (proj2 (real_kind_check a _) Hreal). cbn [rbind].
  unfold check_shape, has_shape, reshape_stage, broadcast_stage, length_stage,
    value_checks, process_output.
  cbn [data_range_config must_have_shape reshape_to broadcast_to
    must_have_length must_have_min_length must_have_max_length is_set orb when_
    must_be_nonnegative must_be_finite must_be_integer_like must_be_in_range
    must_be_sorted sorted_requested dtype_out to_tuple to_list name
    shape_alternatives existsb shape_tuple].
  rewrite orb_false_r.
  destruct (shape_allowed (arr_shape a) [2]) eqn:Hshape.
  - apply shape_allowed_2 in Hshape. cbn [rbind].
    assert (Hdata : exists x y, arr_data a = [x; y]).
    { unfold well_formed, arr_size in Hwf. rewrite Hshape in Hwf.
      destruct (arr_data a) as [|x [|y [|? ?]]]; try discriminate. eauto. }
    destruct Hdata as (x & y & Hx).
    unfold check_sorted, arr_ndim, cast_to_tuple_array. rewrite Hshape, Hx.
    change (sorted_along [2%nat] _ (order_rel true false) [x; y])
      with (xle x y && true).
    rewrite andb_true_r.
    change (nest OTuple (arr_dtype a) [2%nat] [x; y])
      with (OTuple [ONum (item (arr_dtype a) x); ONum (item (arr_dtype a) y)]).
    cbn -[xle item].
    destruct (xle x y) eqn:Hle; cbn [rbind].
    + split.
      * intros [= <-]. repeat split; auto. exists x, y. auto.
      * intros (_ & _ & x' & y' & [= <- <-] & _ & ->). reflexivity.
    + split; [discriminate|].
      intros (_ & _ & x' & y' & [= <- <-] & ? & _). congruence.
  - cbn [rbind]. split; [discriminate|].
    intros (_ & Hs & _). rewrite Hs in Hshape. discriminate.
Qed.

Lemma data_range_accepts_ascending_pairs_witness :
  validate_data_range (floats [0; 1]%Q) ∅
  = Ok (OutObj (OTuple [ONum (PyFloat (Fin 0)); ONum (PyFloat (Fin 1))])).
Proof.
  apply (data_range_accepts_ascending_pairs (floats [0; 1]%Q)
           (mk_ndarray DFloat [2%nat] [Fin 0; Fin 1])
           (OutObj (OTuple [ONum (PyFloat (Fin 0)); ONum (PyFloat (Fin 1))]))
           eq_refl eq_refl).
  split; [reflexivity|]. split; [reflexivity|].
  exists (Fin 0), (Fin 1). repeat split.
Defined.


(** X15: What [_set_default_kwarg_mandatory] does to the dictionary: it
    raises the value error exactly when the keyword is present with
    another value; otherwise the keyword ends bound to the pinned
    value and no other keyword changes. *)
Theorem set_default_kwarg_effect (kwargs : gmap string kwval) (key : string)
    (dflt : kwval) (fname : string) :
  py_eqb dflt dflt = true ->
  (overrides kwargs (key, dflt, fname)
   /\ _set_default_kwarg_mandatory kwargs key dflt fname
      = Raise (ValueError (override_message key fname dflt)))
  \/ (~ overrides kwargs (key, dflt, fname)
      /\ exists kwargs',
          _set_default_kwarg_mandatory kwargs key dflt fname = Ok kwargs'
          /\ kwargs' !! key = Some dflt
          /\ forall k, k <> key -> kwargs' !! k = kwargs !! k).
Proof.
  intros Hrefl.
  destruct (set_default_cases kwargs key dflt fname Hrefl) as [Hov | Hok].
  - left. split; [exact Hov|]. apply set_default_overridden. exact Hov.
  - right. split.
    + intros Hov. rewrite (set_default_overridden _ _ _ _ Hov) in Hok. discriminate.
    + eexists. split; [exact Hok|]. split.
      * apply lookup_insert_eq.
      * intros k Hk. rewrite lookup_insert_ne, lookup_delete_ne by congruence.
        reflexivity.
Qed.

Lemma set_default_kwarg_effect_witness :
  (overrides {[ "must_be_sorted" := KBool false ]}
     ("must_be_sorted", KBool true, "validate_data_range")
   /\ _set_default_kwarg_mandatory {[ "must_be_sorted" := KBool false ]}
        "must_be_sorted" (KBool true) "validate_data_range"
      = Raise (ValueError (override_message "must_be_sorted"
                             "validate_data_range" (KBool true))))
  \/ (~ overrides {[ "must_be_sorted" := KBool false ]}
        ("must_be_sorted", KBool true, "validate_data_range")
      /\ exists kwargs',
          _set_default_kwarg_mandatory {[ "must_be_sorted" := KBool false ]}
            "must_be_sorted" (KBool true) "validate_data_range" = Ok kwargs'
          /\ kwargs' !! "must_be_sorted" = Some (KBool true)
          /\ forall k, k <> "must_be_sorted" ->
             kwargs' !! k
             = ({[ "must_be_sorted" := KBool false ]} : gmap string kwval) !! k).
Proof.
  apply (set_default_kwarg_effect {[ "must_be_sorted" := KBool false ]}
           "must_be_sorted" (KBool true) "validate_data_range").
  reflexivity.
Defined.


(** ** What a returned array has passed *)

Lemma when_ok (b : bool) (r : result unit) :
  when_ b r = Ok tt -> b = true -> r = Ok tt.
Proof. intros H ->. exact H. Qed.

Lemma value_checks_ok (c : config) (a : ndarray) :
  value_checks c a = Ok tt ->
  (must_be_nonnegative c = true -> forallb (xle (Fin 0)) (arr_data a) = true)
  /\ (must_be_finite c = true -> forallb is_finite (arr_data a) = true)
  /\ (must_be_integer_like c = true ->
      forallb (fun x => xeqb x (xfloor x)) (arr_data a) = true)
  /\ (forall rng, must_be_in_range c = Some rng ->
      check_range a rng (strict_lower_bound c) (strict_upper_bound c) (name c)
      = Ok tt)
  /\ (sorted_requested (must_be_sorted c) = true ->
      match must_be_sorted c with
      | SortedDict d =>
          check_sorted a (default true (kw_ascending d))
            (default false (kw_strict d)) (default (-1) (kw_axis d)) (name c)
      | SortedFlag _ => check_sorted a true false (-1) (name c)
      end = Ok tt).
Proof.
  unfold value_checks.
  destruct (when_ (must_be_nonnegative c) _) as [[]|] eqn:Hnn; [|discriminate].
  cbn [rbind].
  destruct (when_ (must_be_finite c) _) as [[]|] eqn:Hfin; [|discriminate].
  cbn [rbind].
  destruct (when_ (must_be_integer_like c) _) as [[]|] eqn:Hint; [|discriminate].
  cbn [rbind].
  destruct (match must_be_in_range c with Some _ => _ | None => _ end)
    as [[]|] eqn:Hrng; [|discriminate].
  cbn [rbind]. intros Hsort.
  split; [|split; [|split; [|split]]].
  - intros E. apply (when_ok _ _ Hnn) in E. unfold check_nonnegative in E.
    destruct (forallb _ _); [reflexivity | discriminate].
  - intros E. apply (when_ok _ _ Hfin) in E. unfold check_finite in E.
    destruct (forallb _ _); [reflexivity | discriminate].
  - intros E. apply (when_ok _ _ Hint) in E. unfold check_integerlike in E.
    cbn [andb] in E. destruct (forallb _ _); [reflexivity | discriminate].
  - intros rng E. rewrite E in Hrng. exact Hrng.
  - intros E. exact (when_ok _ _ Hsort E).
Qed.

(** X16: An array that [validate_array] returns without reshaping or
    broadcasting is the converted input, and it meets every constraint
    that was requested: element kind, shape, length, sign, finiteness,
    integer values, range and order.  Only the cast to [dtype_out] and
    the choice of the container come after the checks. *)
Theorem returned_array_meets_constraints (arr : array_like) (c : config)
    (o : output) :
  reshape_to c = None -> broadcast_to c = None ->
  validate_array arr c = Ok o ->
  exists a, cast_to_ndarray arr (as_any c) (copy c) = Ok a
            /\ satisfies c arr a
            /\ o = process_output c a.
Proof.
  intros Hre Hbr Hval.
  apply validate_array_ok in Hval
    as (a & a1 & a2 & Hcast & Hdt & Hshape & Hre' & Hbr' & Hlen & Hchk & ->).
  unfold reshape_stage in Hre'. rewrite Hre in Hre'. injection Hre' as <-.
  unfold broadcast_stage in Hbr'. rewrite Hbr in Hbr'. injection Hbr' as <-.
  exists a. split; [exact Hcast|]. split; [|reflexivity].
  destruct (value_checks_ok c a Hchk) as (Hnn & Hfin & Hint & Hrng & Hsort).
  unfold satisfies. repeat (split; [assumption|]).
  split; [|auto].
  intros Hset. unfold length_stage in Hlen. rewrite Hset in Hlen.
  cbn [when_] in Hlen. unfold check_length in Hlen.
  destruct (py_len arr true) as [n|]; [|discriminate]. cbn [rbind] in Hlen.
  exists n. split; [reflexivity|].
  destruct (length_ok n _ _ _); [reflexivity | discriminate].
Qed.

Lemma returned_array_meets_constraints_witness :
  exists a, cast_to_ndarray (ints [1; 2; 3; 5; 8; 13]) (as_any c9_config)
              (copy c9_config) = Ok a
            /\ satisfies c9_config (ints [1; 2; 3; 5; 8; 13]) a
            /\ OutArr (mk_ndarray DInt [6%nat]
                         [Fin 1; Fin 2; Fin 3; Fin 5; Fin 8; Fin 13])
               = process_output c9_config a.
Proof.
  apply (returned_array_meets_constraints (ints [1; 2; 3; 5; 8; 13]) c9_config);
    reflexivity.
Defined.

(** ** Axes, continued *)

(** For vectors that pass their own validation, [validate_axes] is the
    test of the handedness followed by the checks on the three rows. *)
Lemma validate_axes_supplied (axes : list array_like) (vs : list (list xq))
    (normalize orth : bool) (o : option string) (nm : string) :
  supplied_axes nm axes vs ->
  validate_axes axes normalize orth o nm
  = rbind (match o with
           | Some s => check_contains s ["right"; "left"] (nm +:+ " orientation")
           | None =>
               if (length vs =? 2)%nat then
                 Raise (ValueError (nm +:+ " orientation must be specified when only two vectors are given."))
               else Ok tt
           end)
      (fun _ => check_axes (frame_rows o vs) normalize orth o nm).
Proof.
  intros Hsup. unfold validate_axes.
  destruct Hsup as [ax a Hval Hshape Hlen
                   | ax0 ax1 v0 v1 H0 L0 H1 L1
                   | ax0 ax1 ax2 v0 v1 v2 H0 L0 H1 L1 H2 L2].
  - change (check_length (ASeq [ax]) (Some [1; 2; 3]) None None false
              (nm +:+ " arguments")) with (Ok tt : result unit).
    cbn [rbind assemble_axes]. rewrite Hval. cbn [rbind expect_array].
    unfold rows. rewrite Hshape. cbn [nth tail nprod Nat.mul fold_right].
    destruct (arr_data a) as [|x0 [|x1 [|x2 [|x3 [|x4 [|x5 [|x6 [|x7 [|x8 [|? ?]]]]]]]]]];
      try discriminate Hlen.
    reflexivity.
  - change (check_length (ASeq [ax0; ax1]) (Some [1; 2; 3]) None None false
              (nm +:+ " arguments")) with (Ok tt : result unit).
    cbn [rbind assemble_axes]. rewrite H0. cbn [rbind]. rewrite H1. cbn [rbind].
    destruct o as [s|]; [|reflexivity].
    destruct (check_contains s _ _) as [[]|]; [|reflexivity]. cbn [rbind].
    unfold frame_rows.
    destruct (bool_decide (Some s = Some "right")); reflexivity.
  - change (check_length (ASeq [ax0; ax1; ax2]) (Some [1; 2; 3]) None None false
              (nm +:+ " arguments")) with (Ok tt : result unit).
    cbn [rbind assemble_axes]. rewrite H0. cbn [rbind]. rewrite H1. cbn [rbind].
    rewrite H2. cbn [rbind]. reflexivity.
Qed.

Lemma supplied_rows (nm : string) (axes : list array_like) (vs : list (list xq))
    (o : option string) :
  supplied_axes nm axes vs ->
  exists r0 r1 r2,
    frame_rows o vs = [r0; r1; r2]
    /\ length r0 = 3%nat /\ length r1 = 3%nat /\ length r2 = 3%nat.
Proof.
  intros [ax a Hval Hshape Hlen
         | ax0 ax1 v0 v1 H0 L0 H1 L1
         | ax0 ax1 ax2 v0 v1 v2 H0 L0 H1 L1 H2 L2].
  - unfold rows. rewrite Hshape. cbn [nth tail nprod Nat.mul fold_right].
    destruct (arr_data a) as [|x0 [|x1 [|x2 [|x3 [|x4 [|x5 [|x6 [|x7 [|x8 [|? ?]]]]]]]]]];
      try discriminate Hlen.
    do 3 eexists. split; [reflexivity|]. repeat split.
  - do 3 eexists. split; [reflexivity|]. repeat split; auto.
    destruct (bool_decide _); apply cross_length; assumption.
  - do 3 eexists. split; [reflexivity|]. repeat split; auto.
Qed.

Local Open Scope Q_scope.



Local Close Scope Q_scope.

(** What the rows of a returned frame have passed. *)
Lemma check_axes_ok (r0 r1 r2 : list xq) (normalize orth : bool)
    (o : option string) (nm : string) (frame : ndarray) :
  length r0 = 3%nat -> length r1 = 3%nat -> length r2 = 3%nat ->
  check_axes [r0; r1; r2] normalize orth o nm = Ok frame ->
  forallb is_finite r0 = true /\ forallb is_finite r1 = true
  /\ forallb is_finite r2 = true
  /\ allclose r0 (replicate 3 (Fin 0)) = false
  /\ allclose r1 (replicate 3 (Fin 0)) = false
  /\ allclose r2 (replicate 3 (Fin 0)) = false
  /\ (o = Some "right" ->
      xlt (dot (cross (scaled true r0) (scaled true r1)) (scaled true r2)) (Fin 0)
      = false)
  /\ (o = Some "left" ->
      xlt (Fin 0) (dot (cross (scaled true r0) (scaled true r1)) (scaled true r2))
      = false)
  /\ frame = of_rows 3 (map (scaled normalize) [r0; r1; r2]).
Proof.
  intros L0 L1 L2 H.
  pose proof (check_axes_returns _ _ _ _ _ _ H) as Hframe.
  unfold check_axes, check_finite in H.
  destruct (forallb is_finite (arr_data (of_rows 3 [r0; r1; r2]))) eqn:Hfin;
    [|discriminate].
  cbn [rbind] in H.
  cbn [of_rows arr_data concat] in Hfin. rewrite !forallb_app in Hfin.
  apply andb_true_iff in Hfin as [F0 Hfin].
  apply andb_true_iff in Hfin as [F1 Hfin].
  apply andb_true_iff in Hfin as [F2 _].
  destruct (isclose _ _ || isclose _ _); [discriminate|].
  destruct (existsb _ _) eqn:Hz; [discriminate|].
  cbn [existsb] in Hz.
  apply orb_false_iff in Hz as [Hza Hz].
  apply orb_false_iff in Hz as [Hzb Hz].
  apply orb_false_iff in Hz as [Hzc _].
  destruct (orth && _); [discriminate|].
  repeat (split; [assumption|]).
  cbn [map] in H.
  set (n0 := map (fun x => xdiv x (norm r0)) r0) in H.
  set (n1 := map (fun x => xdiv x (norm r1)) r1) in H.
  set (n2 := map (fun x => xdiv x (norm r2)) r2) in H.
  change ([n0; n1; n2] !!! 0%nat) with n0 in H.
  change ([n0; n1; n2] !!! 1%nat) with n1 in H.
  change ([n0; n1; n2] !!! 2%nat) with n2 in H.
  subst n0 n1 n2.
  split; [|split; [|exact Hframe]].
  - intros ->. unfold scaled.
    destruct (xlt _ (Fin 0)); [discriminate H | reflexivity].
  - intros ->. unfold scaled.
    change (orientation_requested (Some "left")
            && bool_decide (Some "left" = Some "right")) with false in H.
    cbn [andb] in H.
    destruct (xlt (Fin 0) _); [discriminate H | reflexivity].
Qed.


Lemma scaled_length (normalize : bool) (v : list xq) :
  length (scaled normalize v) = length v.
Proof. unfold scaled. destruct normalize; [apply length_map | reflexivity]. Qed.


Lemma scaled_finite (r : list xq) (normalize : bool) :
  length r = 3%nat -> forallb is_finite r = true ->
  allclose r (replicate 3 (Fin 0)) = false ->
  forallb is_finite (scaled normalize r) = true.
Proof.
  intros L F Hz. destruct normalize; [|exact F].
  destruct (finite_row r L F) as (a1 & a2 & a3 & ->).
  unfold scaled. destruct (normalize_Fin _ _ _ Hz) as (n1 & n2 & n3 & -> & _).
  reflexivity.
Qed.

(** X17: What [validate_axes] returns is a 3x3 array of floats, all of them
    finite, whether the rows were normalised or not. *)
Theorem axes_frame_is_finite (axes : list array_like) (vs : list (list xq))
    (normalize orth : bool) (o : option string) (nm : string) (frame : ndarray) :
  supplied_axes nm axes vs ->
  validate_axes axes normalize orth o nm = Ok frame ->
  arr_dtype frame = DFloat
  /\ arr_shape frame = [3; 3]%nat
  /\ length (arr_data frame) = 9%nat
  /\ forallb is_finite (arr_data frame) = true.
Proof.
  intros Hsup. rewrite (validate_axes_supplied _ _ _ _ _ _ Hsup).
  destruct (match o with Some _ => _ | None => _ end) as [[]|]; [|discriminate].
  cbn [rbind].
  destruct (supplied_rows nm axes vs o Hsup) as (r0 & r1 & r2 & -> & L0 & L1 & L2).
  intros H.
  apply check_axes_ok in H
    as (F0 & F1 & F2 & Z0 & Z1 & Z2 & _ & _ & ->); try assumption.
  split; [reflexivity|]. split; [reflexivity|].
  cbn [of_rows arr_data map concat]. rewrite app_nil_r.
  split.
  - rewrite !length_app, !scaled_length, L0, L1, L2. reflexivity.
  - rewrite !forallb_app, !scaled_finite by assumption. reflexivity.
Qed.

Lemma axes_frame_is_finite_witness :
  arr_dtype (eye 3) = DFloat
  /\ arr_shape (eye 3) = [3; 3]%nat
  /\ length (arr_data (eye 3)) = 9%nat
  /\ forallb is_finite (arr_data (eye 3)) = true.
Proof.
  apply (axes_frame_is_finite [ints [2; 0; 0]; ints [0; 2; 0]]
           [[Fin 2; Fin 0; Fin 0]; [Fin 0; Fin 2; Fin 0]]
           true true (Some "right") "Axes").
  - apply supplied_two; reflexivity.
  - vm_compute. reflexivity.
Defined.



Local Open Scope Q_scope.





Local Close Scope Q_scope.



Local Open Scope Q_scope.


Local Close Scope Q_scope.







(** X22: The outcome depends on the supplied vectors only, not on the way
    they are passed: one 3x3 array and its three rows as separate
    arguments give the same result, errors included. *)
Theorem axes_outcome_by_vectors (axes axes' : list array_like)
    (vs : list (list xq)) (normalize orth : bool) (o : option string)
    (nm : string) :
  supplied_axes nm axes vs ->
  supplied_axes nm axes' vs ->
  validate_axes axes normalize orth o nm
  = validate_axes axes' normalize orth o nm.
Proof.
  intros H H'.
  rewrite (validate_axes_supplied _ _ _ _ _ _ H),
    (validate_axes_supplied _ _ _ _ _ _ H').
  reflexivity.
Qed.

Lemma axes_outcome_by_vectors_witness :
  validate_axes [ASeq [ints [0; 2; 0]; ints [2; 0; 0]; ints [0; 0; 2]]]
    true true (Some "left") "Axes"
  = validate_axes [ints [0; 2; 0]; ints [2; 0; 0]; ints [0; 0; 2]]
      true true (Some "left") "Axes".
Proof.
  apply (axes_outcome_by_vectors
           [ASeq [ints [0; 2; 0]; ints [2; 0; 0]; ints [0; 0; 2]]]
           [ints [0; 2; 0]; ints [2; 0; 0]; ints [0; 0; 2]]
           [[Fin 0; Fin 2; Fin 0]; [Fin 2; Fin 0; Fin 0]; [Fin 0; Fin 0; Fin 2]]).
  - apply (supplied_matrix "Axes"
             (ASeq [ints [0; 2; 0]; ints [2; 0; 0]; ints [0; 0; 2]])
             (mk_ndarray DFloat [3; 3]%nat
                [Fin 0; Fin 2; Fin 0; Fin 2; Fin 0; Fin 0; Fin 0; Fin 0; Fin 2]));
      reflexivity.
  - apply supplied_three; reflexivity.
Defined.
